(** * Research-App: the tolerance-scenario calculator and the forecast

    A shallow embedding of [Predict_Best_Tolerance_based_on_Material]
    (src/utils/data_processing.py) and of the forecast computed inline in
    [main] (src/app.py), followed by [load_csv], [filter_data],
    [filter_data_multi] and the three dependent filters of [main].

    Numbers are IEEE 754 binary64 values, as Python's [float] and numpy's
    [float64] are: they are modelled by Rocq's primitive floats, so that
    every arithmetic step of the source is the same rounding operation in
    the model.  Python dictionaries are finite maps with string keys,
    exceptions are an explicit error monad, and a pandas DataFrame is a row
    count with a finite map from column names to columns. *)

From Stdlib Require Import Floats.
From stdpp Require Import base option list gmap strings.

Set Warnings "-inexact-float,-register-all,-clear-no-such-hyp".

Local Open Scope string_scope.

(** ** Python values *)

Inductive value :=
  | VNone
  | VBool (b : bool)
  | VStr (s : string)
  | VFloat (f : float)
  | VList (l : list value)
  | VDict (d : gmap string value).

(** ** Exceptions *)

(** The exception classes the modelled code can meet, and two classes
    that do not derive from [Exception]. *)
Inductive exn_class :=
  | KeyError
  | IndexError
  | TypeError
  | NameError
  | KeyboardInterrupt
  | SystemExit.

(** [isinstance(e, Exception)]. *)
Definition is_Exception (c : exn_class) : bool :=
  match c with
  | KeyError | IndexError | TypeError | NameError => true
  | KeyboardInterrupt | SystemExit => false
  end.

(** An exception object: its class, and the text [str(e)] gives. *)
Record exn := Exn { exn_cls : exn_class; exn_str : string }.

Inductive exc (A : Type) :=
  | Ok (a : A)
  | Raise (e : exn).
Arguments Ok {A} a.
Arguments Raise {A} e.

#[global] Instance exc_ret : MRet exc := fun A a => Ok a.
#[global] Instance exc_bind : MBind exc := fun A B f m =>
  match m with
  | Ok a => f a
  | Raise e => Raise e
  end.

(** [try: body  except Exception as e: handler e]. *)
Definition try_except_Exception {A} (body : exc A) (handler : exn -> exc A)
  : exc A :=
  match body with
  | Ok a => Ok a
  | Raise e => if is_Exception (exn_cls e) then handler e else Raise e
  end.

(** A computation is catchable when whatever it raises is an instance of
    [Exception]. *)
Definition catchable {A} (m : exc A) : Prop :=
  ∀ e, m = Raise e → is_Exception (exn_cls e) = true.

(** ** Dictionaries and lists *)

(** A dictionary display [{k1: v1, ...}]. *)
Definition dict (items : list (string * value)) : gmap string value :=
  list_to_map items.

(** [d[k]] *)
Definition dict_getitem (d : gmap string value) (k : string) : exc value :=
  match d !! k with
  | Some v => Ok v
  | None => Raise (Exn KeyError ("'" +:+ k +:+ "'"))
  end.

(** [l[i]] for a Python list and a non-negative index. *)
Definition list_getitem {A} (l : list A) (i : nat) : exc A :=
  match l !! i with
  | Some v => Ok v
  | None => Raise (Exn IndexError "list index out of range")
  end.

(** ** Columns and frames *)

(** A column is of dtype float64 or holds strings (dtype object). *)
Inductive Series :=
  | Float64 (xs : list float)
  | Object (xs : list string).

Record DataFrame := { nrows : nat; columns : gmap string Series }.

(** [len(df)] *)
Definition len (df : DataFrame) : nat := nrows df.

Definition series_len (s : Series) : nat :=
  match s with
  | Float64 xs => length xs
  | Object xs => length xs
  end.

(** Every column of a frame has one cell per row. *)
Definition wf_frame (df : DataFrame) : Prop :=
  ∀ c s, columns df !! c = Some s → series_len s = nrows df.

(** [df[c]] *)
Definition frame_getitem (df : DataFrame) (c : string) : exc Series :=
  match columns df !! c with
  | Some s => Ok s
  | None => Raise (Exn KeyError ("'" +:+ c +:+ "'"))
  end.

(** [c in df.columns] *)
Definition has_column (df : DataFrame) (c : string) : bool :=
  bool_decide (is_Some (columns df !! c)).

(** The hash table behind [unique] takes two floats for the same key when
    they compare equal or are both NaN. *)
Definition float_key_eq (x y : float) : bool :=
  PrimFloat.eqb x y || (negb (PrimFloat.eqb x x) && negb (PrimFloat.eqb y y)).

(** Values in order of first appearance. *)
Fixpoint uniques {A} (same : A → A → bool) (xs : list A) : list A :=
  match xs with
  | [] => []
  | x :: rest => x :: filter (λ y, same x y = false) (uniques same rest)
  end.

(** [s.unique()] *)
Definition unique (s : Series) : Series :=
  match s with
  | Float64 xs => Float64 (uniques float_key_eq xs)
  | Object xs => Object (uniques String.eqb xs)
  end.

(** [a[0]] for the array [unique] returns. *)
Definition array_first (s : Series) : exc value :=
  match s with
  | Float64 (x :: _) => Ok (VFloat x)
  | Object (x :: _) => Ok (VStr x)
  | _ => Raise (Exn IndexError
                  "index 0 is out of bounds for axis 0 with size 0")
  end.

(** ** Arithmetic on values

    The operands are numpy float64 scalars: division follows IEEE 754 and
    gives an infinity or a NaN where the divisor is zero.  An integer
    literal of the source ([6], [3], [2], [10], [100]) is converted to
    the float of the same value. *)

(** What pandas and numpy contribute: the two reductions on the cells of a
    float64 column ([std] is the sample standard deviation, [mean] the
    average), and the text of the TypeError an operation raises when an
    operand is a string. *)
Class Pandas := {
  series_std : list float → float;
  series_mean : list float → float;
  type_error_text : string → string
}.

Section Calculator.

Context `{Pandas}.

Definition binop (name : string) (f : float → float → float)
    (a b : value) : exc value :=
  match a, b with
  | VFloat x, VFloat y => Ok (VFloat (f x y))
  | _, _ => Raise (Exn TypeError (type_error_text name))
  end.

Definition py_sub := binop "-" PrimFloat.sub.
Definition py_add := binop "+" PrimFloat.add.
Definition py_mul := binop "*" PrimFloat.mul.
Definition py_div := binop "/" PrimFloat.div.

(** [a > b] *)
Definition py_gt (a b : value) : exc bool :=
  match a, b with
  | VFloat x, VFloat y => Ok (PrimFloat.ltb y x)
  | _, _ => Raise (Exn TypeError (type_error_text ">"))
  end.

(** [a < b] *)
Definition py_lt (a b : value) : exc bool :=
  match a, b with
  | VFloat x, VFloat y => Ok (PrimFloat.ltb x y)
  | _, _ => Raise (Exn TypeError (type_error_text "<"))
  end.

(** [min(a, b)]: the first argument unless the second is smaller. *)
Definition py_min (a b : value) : exc value :=
  smaller ← py_lt b a;
  mret (if smaller : bool then b else a).

(** [s.std()] *)
Definition Series_std (s : Series) : exc value :=
  match s with
  | Float64 xs => Ok (VFloat (series_std xs))
  | Object _ => Raise (Exn TypeError (type_error_text "std"))
  end.

(** [s.mean()] *)
Definition Series_mean (s : Series) : exc value :=
  match s with
  | Float64 xs => Ok (VFloat (series_mean xs))
  | Object _ => Raise (Exn TypeError (type_error_text "mean"))
  end.

(** [df[c].unique()[0]] *)
Definition first_unique (df : DataFrame) (c : string) : exc value :=
  s ← frame_getitem df c;
  array_first (unique s).

(** The dictionary returned for a table without rows. *)
Definition no_data : gmap string value :=
  dict [ ("best_tolerance", VNone);
         ("message", VStr "No data available for prediction");
         ("success", VBool false) ].

(** The dictionary the handler returns. *)
Definition prediction_error (e : exn) : gmap string value :=
  dict [ ("best_tolerance", VNone);
         ("message", VStr ("Error in prediction: " +:+ exn_str e));
         ("success", VBool false) ].

(** The body of the loop over the scenarios:
    [scenario["score"] = scenario["cp"] - (scenario["gage_rr"] / 100)]. *)
Definition set_score (scenario : gmap string value)
  : exc (gmap string value) :=
  cp ← dict_getitem scenario "cp";
  gage_rr ← dict_getitem scenario "gage_rr";
  penalty ← py_div gage_rr (VFloat 100);
  score ← py_sub cp penalty;
  mret (<["score" := score]> scenario).

(** Lines 117 to 209 of data_processing.py: the current metrics, the four
    scenarios, their scores and the recommendation, from the values the
    first lines of the [try] block read off the table. *)
Definition recommend
    (std_dev mean lsl usl current_tolerance current_gage_rr : value)
  : exc (gmap string value) :=
  (* Calculate current process metrics *)
  positive ← py_gt std_dev (VFloat 0);
  current_cp ←
    (if positive : bool
     then spread ← py_mul (VFloat 6) std_dev;
          py_div current_tolerance spread
     else mret (VFloat infinity));
  positive ← py_gt std_dev (VFloat 0);
  current_cpk_lower ←
    (if positive : bool
     then distance ← py_sub mean lsl;
          spread ← py_mul (VFloat 3) std_dev;
          py_div distance spread
     else mret (VFloat infinity));
  positive ← py_gt std_dev (VFloat 0);
  current_cpk_upper ←
    (if positive : bool
     then distance ← py_sub usl mean;
          spread ← py_mul (VFloat 3) std_dev;
          py_div distance spread
     else mret (VFloat infinity));
  current_cpk ← py_min current_cpk_lower current_cpk_upper;
  let scenarios : list (gmap string value) := [] in
  (* Scenario 1: Cp/Cpk = 1.0 *)
  min_acceptable_tolerance ← py_mul (VFloat 6) std_dev;
  variation ← py_mul current_gage_rr current_tolerance;
  gage_rr_at_min ← py_div variation min_acceptable_tolerance;
  half ← py_div min_acceptable_tolerance (VFloat 2);
  lsl_at_min ← py_sub mean half;
  half ← py_div min_acceptable_tolerance (VFloat 2);
  usl_at_min ← py_add mean half;
  let scenarios := (scenarios ++
    [dict [ ("name", VStr "Minimum Acceptable Tolerance (Cp = 1.0)");
            ("tolerance", min_acceptable_tolerance);
            ("cp", VFloat 1.0);
            ("cpk", VFloat 1.0);
            ("gage_rr", gage_rr_at_min);
            ("lsl", lsl_at_min);
            ("usl", usl_at_min) ]])%list in
  (* Scenario 2: Cp/Cpk = 1.33 *)
  spread ← py_mul (VFloat 6) std_dev;
  good_tolerance ← py_mul spread (VFloat 1.33);
  variation ← py_mul current_gage_rr current_tolerance;
  gage_rr_at_good ← py_div variation good_tolerance;
  half ← py_div good_tolerance (VFloat 2);
  lsl_at_good ← py_sub mean half;
  half ← py_div good_tolerance (VFloat 2);
  usl_at_good ← py_add mean half;
  let scenarios := (scenarios ++
    [dict [ ("name", VStr "Good Quality Tolerance (Cp = 1.33)");
            ("tolerance", good_tolerance);
            ("cp", VFloat 1.33);
            ("cpk", VFloat 1.33);
            ("gage_rr", gage_rr_at_good);
            ("lsl", lsl_at_good);
            ("usl", usl_at_good) ]])%list in
  (* Scenario 3: Cp/Cpk = 1.67 *)
  spread ← py_mul (VFloat 6) std_dev;
  high_tolerance ← py_mul spread (VFloat 1.67);
  variation ← py_mul current_gage_rr current_tolerance;
  gage_rr_at_high ← py_div variation high_tolerance;
  half ← py_div high_tolerance (VFloat 2);
  lsl_at_high ← py_sub mean half;
  half ← py_div high_tolerance (VFloat 2);
  usl_at_high ← py_add mean half;
  let scenarios := (scenarios ++
    [dict [ ("name", VStr "High Quality Tolerance (Cp = 1.67)");
            ("tolerance", high_tolerance);
            ("cp", VFloat 1.67);
            ("cpk", VFloat 1.67);
            ("gage_rr", gage_rr_at_high);
            ("lsl", lsl_at_high);
            ("usl", usl_at_high) ]])%list in
  (* Scenario 4: Gage R&R = 10% *)
  variation ← py_mul current_gage_rr current_tolerance;
  excellent_gage_tolerance ← py_div variation (VFloat 10);
  spread ← py_mul (VFloat 6) std_dev;
  cp_at_excellent ← py_div excellent_gage_tolerance spread;
  half ← py_div excellent_gage_tolerance (VFloat 2);
  lsl_at_excellent ← py_sub mean half;
  half ← py_div excellent_gage_tolerance (VFloat 2);
  usl_at_excellent ← py_add mean half;
  let scenarios := (scenarios ++
    [dict [ ("name", VStr "Excellent Measurement System (Gage R&R = 10%)");
            ("tolerance", excellent_gage_tolerance);
            ("cp", cp_at_excellent);
            ("cpk", cp_at_excellent);
            ("gage_rr", VFloat 10.0);
            ("lsl", lsl_at_excellent);
            ("usl", usl_at_excellent) ]])%list in
  (* for scenario in scenarios: ... *)
  scenarios ← mapM set_score scenarios;
  (* scenarios.sort(...) is commented out in the source *)
  best_scenario ← list_getitem scenarios 1;
  best_tolerance ← dict_getitem best_scenario "tolerance";
  new_lsl ← dict_getitem best_scenario "lsl";
  new_usl ← dict_getitem best_scenario "usl";
  resulting_cp ← dict_getitem best_scenario "cp";
  resulting_cpk ← dict_getitem best_scenario "cpk";
  resulting_gage_rr ← dict_getitem best_scenario "gage_rr";
  recommended_scenario ← dict_getitem best_scenario "name";
  mret (dict [ ("best_tolerance", best_tolerance);
               ("new_lsl", new_lsl);
               ("new_usl", new_usl);
               ("resulting_cp", resulting_cp);
               ("resulting_cpk", resulting_cpk);
               ("resulting_gage_rr", resulting_gage_rr);
               ("current_cp", current_cp);
               ("current_cpk", current_cpk);
               ("current_gage_rr", current_gage_rr);
               ("all_scenarios", VList (VDict <$> scenarios));
               ("recommended_scenario", recommended_scenario);
               ("success", VBool true) ]).

(** The [try] block: lines 106 to 115 read the table, the rest is
    [recommend]. *)
Definition try_block (df : DataFrame) : exc (gmap string value) :=
  meas ← frame_getitem df "MeasValue";
  std_dev ← Series_std meas;
  meas ← frame_getitem df "MeasValue";
  mean ← Series_mean meas;
  lsl ← first_unique df "LSL";
  usl ← first_unique df "USL";
  current_tolerance ← py_sub usl lsl;
  current_gage_rr ← first_unique df "Gage_RR";
  recommend std_dev mean lsl usl current_tolerance current_gage_rr.

Definition Predict_Best_Tolerance_based_on_Material (df : DataFrame)
  : exc (gmap string value) :=
  if (len df =? 0)%nat then mret no_data
  else try_except_Exception (try_block df)
         (λ e, mret (prediction_error e)).

(** The forecast of [main] in app.py: lines 154 to 156 (the current
    tolerance), 165 and 166 ([std_dev], bound only when the table has a
    MeasValue column), 241, 252 and 253.  [input_value] is what the
    number input returns (the variable [value] of the source); what the
    page renders in between is not part of the model. *)
Definition forecast (filtered_df : DataFrame) (input_value : value)
  : exc (value * value) :=
  USL ← first_unique filtered_df "USL";
  LSL ← first_unique filtered_df "LSL";
  Tolerance ← py_sub USL LSL;
  std_dev ←
    (if has_column filtered_df "MeasValue"
     then meas ← frame_getitem filtered_df "MeasValue";
          deviation ← Series_std meas;
          mret (Some deviation)
     else mret None);
  std_dev ←
    match std_dev : option value with
    | Some v => Ok v
    | None => Raise (Exn NameError
        "cannot access local variable 'std_dev' where it is not associated with a value")
    end;
  spread ← py_mul (VFloat 6) std_dev;
  result_df ← py_div input_value spread;
  gage_rr_value ← first_unique filtered_df "Gage_RR";
  variation ← py_mul gage_rr_value Tolerance;
  Forecast_GRR ← py_div variation input_value;
  mret (result_df, Forecast_GRR).

End Calculator.

(** ** A concrete instance of the reductions

    The two-pass formulas with sums taken from left to right; [std] has
    one degree of freedom less than there are cells.  The examples below
    run the calculator with it. *)

Definition float_sum (xs : list float) : float :=
  foldl PrimFloat.add 0%float xs.

Definition float_count (xs : list float) : float :=
  foldl (λ n _, PrimFloat.add n 1) 0%float xs.

Definition sample_mean (xs : list float) : float :=
  PrimFloat.div (float_sum xs) (float_count xs).

Definition sample_std (xs : list float) : float :=
  let avg := sample_mean xs in
  let squares := (λ x, PrimFloat.mul (PrimFloat.sub avg x)
                                     (PrimFloat.sub avg x)) <$> xs in
  PrimFloat.sqrt
    (PrimFloat.div (float_sum squares)
                   (PrimFloat.sub (float_count xs) 1)).

#[local] Instance two_pass : Pandas := {|
  series_std := sample_std;
  series_mean := sample_mean;
  type_error_text := λ op, "unsupported operand type(s) for " +:+ op
|}.

(** ** Reading a result *)

(** [r[k]] for the dictionary a call returned. *)
Definition result_field (r : exc (gmap string value)) (k : string)
  : option value :=
  match r with
  | Ok d => d !! k
  | Raise _ => None
  end.

(** [r["all_scenarios"][i][k]] *)
Definition scenario_field (r : exc (gmap string value)) (i : nat)
    (k : string) : option value :=
  match result_field r "all_scenarios" with
  | Some (VList scenarios) =>
      match scenarios !! i with
      | Some (VDict scenario) => scenario !! k
      | _ => None
      end
  | _ => None
  end.

(** The number of entries of [r["all_scenarios"]]. *)
Definition scenario_count (r : exc (gmap string value)) : option nat :=
  match result_field r "all_scenarios" with
  | Some (VList scenarios) => Some (length scenarios)
  | _ => None
  end.

(** What [min(a, b)] gives on two floats. *)
Definition float_min (a b : float) : float :=
  if PrimFloat.ltb b a then b else a.

(** The column contract of the calculator: MeasValue is a float64 column
    with cells [ms]; LSL, USL and Gage_RR are float64 columns whose first
    cells are [lsl], [usl] and [gage_rr]. *)
Definition reads (df : DataFrame) (ms : list float)
    (lsl usl gage_rr : float) : Prop :=
  columns df !! "MeasValue" = Some (Float64 ms)
  ∧ (∃ rest, columns df !! "LSL" = Some (Float64 (lsl :: rest)))
  ∧ (∃ rest, columns df !! "USL" = Some (Float64 (usl :: rest)))
  ∧ (∃ rest, columns df !! "Gage_RR" = Some (Float64 (gage_rr :: rest))).

(** ** Tables for the examples *)

(** Measurements [ms] of one dimension, whose limits and Gage R&R are the
    same in every row. *)
Definition measurements (ms : list float) (lsl usl gage_rr : float)
  : DataFrame :=
  {| nrows := length ms;
     columns := list_to_map
       [ ("MeasValue", Float64 ms);
         ("LSL", Float64 (replicate (length ms) lsl));
         ("USL", Float64 (replicate (length ms) usl));
         ("Gage_RR", Float64 (replicate (length ms) gage_rr)) ] |}.

(** Three measurements with standard deviation 0.05, under the limits
    9.8 and 10.2 and a Gage R&R of 15. *)
Definition example_frame : DataFrame :=
  measurements [(-0.05)%float; 0%float; 0.05%float]
               9.8%float 10.2%float 15%float.

(** Three equal measurements: the standard deviation is 0. *)
Definition constant_frame : DataFrame :=
  measurements [10%float; 10%float; 10%float] 9.8%float 10.2%float 15%float.

(** The empty frame, with no column at all. *)
Definition empty_frame : DataFrame := {| nrows := 0; columns := ∅ |}.

(** Two rows of measurements and nothing else: the LSL column is missing. *)
Definition frame_without_limits : DataFrame :=
  {| nrows := 2;
     columns := list_to_map [ ("MeasValue", Float64 [1%float; 2%float]) ] |}.

(** The limits were loaded as text. *)
Definition frame_with_text_limits : DataFrame :=
  {| nrows := 2;
     columns := list_to_map
       [ ("MeasValue", Float64 [1%float; 2%float]);
         ("LSL", Object ["low"; "low"]);
         ("USL", Object ["high"; "high"]);
         ("Gage_RR", Float64 [15%float; 15%float]) ] |}.

(** A frame that says it has rows while its LSL column has no cell. *)
Definition frame_with_hollow_limits : DataFrame :=
  {| nrows := 2;
     columns := list_to_map
       [ ("MeasValue", Float64 [1%float; 2%float]);
         ("LSL", Float64 []) ] |}.

(** ** The result in closed form *)

(** A scenario once the loop has set its score. *)
Local Open Scope float_scope.

Definition scenario (name : string) (tolerance cp gage_rr mean : float)
  : gmap string value :=
  <["score" := VFloat (cp - gage_rr / 100)]>
    (dict [ ("name", VStr name);
            ("tolerance", VFloat tolerance);
            ("cp", VFloat cp);
            ("cpk", VFloat cp);
            ("gage_rr", VFloat gage_rr);
            ("lsl", VFloat (mean - tolerance / 2));
            ("usl", VFloat (mean + tolerance / 2)) ]).

(** The dictionary [recommend] is proved to return when it is given the
    floats [s] (standard deviation), [m] (mean), [l], [u] (limits),
    [t] (current tolerance) and [g] (current Gage R&R). *)
Definition recommendation (s m l u t g : float) : gmap string value :=
  dict [ ("best_tolerance", VFloat (6 * s * 1.33));
         ("new_lsl", VFloat (m - 6 * s * 1.33 / 2));
         ("new_usl", VFloat (m + 6 * s * 1.33 / 2));
         ("resulting_cp", VFloat 1.33);
         ("resulting_cpk", VFloat 1.33);
         ("resulting_gage_rr", VFloat (g * t / (6 * s * 1.33)));
         ("current_cp", VFloat (if 0 <? s then t / (6 * s) else infinity));
         ("current_cpk",
          VFloat (if 0 <? s
                  then float_min ((m - l) / (3 * s)) ((u - m) / (3 * s))
                  else infinity));
         ("current_gage_rr", VFloat g);
         ("all_scenarios",
          VList
            [ VDict (scenario "Minimum Acceptable Tolerance (Cp = 1.0)"
                       (6 * s) 1 (g * t / (6 * s)) m);
              VDict (scenario "Good Quality Tolerance (Cp = 1.33)"
                       (6 * s * 1.33) 1.33 (g * t / (6 * s * 1.33)) m);
              VDict (scenario "High Quality Tolerance (Cp = 1.67)"
                       (6 * s * 1.67) 1.67 (g * t / (6 * s * 1.67)) m);
              VDict (scenario "Excellent Measurement System (Gage R&R = 10%)"
                       (g * t / 10) (g * t / 10 / (6 * s)) 10 m) ]);
         ("recommended_scenario", VStr "Good Quality Tolerance (Cp = 1.33)");
         ("success", VBool true) ].

Local Close Scope float_scope.

(** [r["all_scenarios"][i][k]] when it is a float. *)
Definition scenario_float (r : exc (gmap string value)) (i : nat)
    (k : string) : option float :=
  match scenario_field r i k with
  | Some (VFloat x) => Some x
  | _ => None
  end.

(** [a * b == c] on floats that may be missing. *)
Definition product_equals (a b : option float) (c : float) : bool :=
  match a, b with
  | Some x, Some y => PrimFloat.eqb (PrimFloat.mul x y) c
  | _, _ => false
  end.

(** Measurements with standard deviation 0.05 under the limits 9.5 and
    10.5. *)
Definition wide_frame : DataFrame :=
  measurements [(-0.05)%float; 0%float; 0.05%float]
               9.5%float 10.5%float 15%float.

(** The top-level field [top] of a result carries the value of the field
    [k] of its scenario number [i]. *)
Definition promoted (r : exc (gmap string value)) (top : string) (i : nat)
    (k : string) : Prop :=
  ∃ v, scenario_field r i k = Some v ∧ result_field r top = Some v.

(** The forecast Cp of a run, or [fallback] when there is none. *)
Definition forecast_cp (fallback : float) (r : exc (value * value)) : float :=
  match r with
  | Ok (VFloat cp, _) => cp
  | _ => fallback
  end.

(** [|x - y| < eps] in binary64, false when [x] is missing. *)
Definition close_to (x : option float) (y eps : float) : bool :=
  match x with
  | Some v => PrimFloat.ltb (PrimFloat.abs (PrimFloat.sub v y)) eps
  | None => false
  end.

(** ** Row filters (data_processing.py, lines 20 to 54) *)

(** [s.tolist()]: the cells of a column as Python values. *)
Definition series_values (s : Series) : list value :=
  match s with
  | Float64 xs => VFloat <$> xs
  | Object xs => VStr <$> xs
  end.

(** Whether a cell is the value [v] for [isin]: floats by the key
    equality of the hash table, text by string equality; a float and a
    text never match. *)
Definition value_matches (cell v : value) : bool :=
  match cell, v with
  | VFloat x, VFloat y => float_key_eq x y
  | VStr x, VStr y => String.eqb x y
  | _, _ => false
  end.

(** [s.isin(values)]: one boolean per cell. *)
Definition isin (s : Series) (values : list value) : list bool :=
  (λ cell, existsb (value_matches cell) values) <$> series_values s.

(** The entries of [xs] at the positions where [mask] is true. *)
Fixpoint select {A} (mask : list bool) (xs : list A) : list A :=
  match mask, xs with
  | b :: mask', x :: xs' =>
      if b then x :: select mask' xs' else select mask' xs'
  | _, _ => []
  end.

(** [s[mask]] *)
Definition Series_mask (mask : list bool) (s : Series) : Series :=
  match s with
  | Float64 xs => Float64 (select mask xs)
  | Object xs => Object (select mask xs)
  end.

(** [df[mask]] for a boolean mask with one entry per row: the rows at
    the true positions, in every column. *)
Definition frame_mask (df : DataFrame) (mask : list bool) : DataFrame :=
  {| nrows := length (select mask (seq 0 (nrows df)));
     columns := Series_mask mask <$> columns df |}.

(** [not values] for a Python list. *)
Definition is_empty {A} (l : list A) : bool :=
  match l with
  | [] => true
  | _ :: _ => false
  end.

(** [filter_data(df, column, selected_values)] *)
Definition filter_data (df : DataFrame) (column : string)
    (selected_values : list value) : exc DataFrame :=
  if is_empty selected_values then mret df
  else
    s ← frame_getitem df column;
    mret (frame_mask df (isin s selected_values)).

(** The loop of [filter_data_multi] over the items of [filters_dict], in
    insertion order. *)
Fixpoint filter_loop (filtered_df : DataFrame)
    (items : list (string * list value)) : exc DataFrame :=
  match items with
  | [] => mret filtered_df
  | (column, values) :: rest =>
      if is_empty values then filter_loop filtered_df rest
      else
        s ← frame_getitem filtered_df column;
        filter_loop (frame_mask filtered_df (isin s values)) rest
  end.

(** [filter_data_multi(df, filters_dict)]; the dictionary is the list of
    its items, and the copy of a frame is the frame. *)
Definition filter_data_multi (df : DataFrame)
    (filters_dict : list (string * list value)) : exc DataFrame :=
  let filtered_df := df in
  filter_loop filtered_df filters_dict.

(** [filters[k] = v] on the items of a dictionary: the value of an
    existing key is replaced in place, a new key goes to the end. *)
Fixpoint filters_setitem (filters : list (string * list value)) (k : string)
    (v : list value) : list (string * list value) :=
  match filters with
  | [] => [(k, v)]
  | (k', v') :: rest =>
      if String.eqb k' k then (k, v) :: rest
      else (k', v') :: filters_setitem rest k v
  end.

(** [load_csv(file)], given what [pd.read_csv(file)] does: an exception
    becomes a frame with the one column Error and one row. *)
Definition load_csv (read_csv : exc DataFrame) : exc DataFrame :=
  try_except_Exception read_csv
    (λ e, mret {| nrows := 1;
                  columns := {[ "Error" :=
                    Object ["Failed to load file: " +:+ exn_str e] ]} |}).

(** The filters of [main] in app.py, lines 79 to 137.  [multiselect] is
    the user: given the label of a widget and the options it offers, the
    options selected. *)
Definition main_filters (loaded : exc DataFrame)
    (multiselect : string → list value → list value) : exc DataFrame :=
  df ← load_csv loaded;
  let filtered_df := df in
  let filters : list (string * list value) := [] in
  mach ← frame_getitem df "MachineId";
  let unique_mach_codes := series_values (unique mach) in
  let selected_mach_codes :=
    multiselect "Select Machine Id values" unique_mach_codes in
  let filters := filters_setitem filters "MachineId" selected_mach_codes in
  filtered_df ← filter_data_multi df filters;
  mat ← frame_getitem filtered_df "MaterialDesc";
  let unique_mat_desc := series_values (unique mat) in
  let selected_mat_desc :=
    multiselect "Select Material Description values" unique_mat_desc in
  let filters := filters_setitem filters "MaterialDesc" selected_mat_desc in
  filtered_df ← filter_data_multi df filters;
  dim ← frame_getitem filtered_df "DimensionDesc";
  let unique_dim_desc := series_values (unique dim) in
  let selected_dim_desc :=
    multiselect "Select Dimension Description values" unique_dim_desc in
  let filters := filters_setitem filters "DimensionDesc" selected_dim_desc in
  filtered_df ← filter_data_multi df filters;
  mret filtered_df.

(** ** What the filters are compared with *)

(** The rows of [df] that pass every entry of [items] with a non-empty
    list of values, as one mask over the rows of [df]. *)
Fixpoint row_mask (df : DataFrame) (items : list (string * list value))
  : list bool :=
  match items with
  | [] => replicate (nrows df) true
  | (column, values) :: rest =>
      if is_empty values then row_mask df rest
      else
        match columns df !! column with
        | Some s => zip_with andb (isin s values) (row_mask df rest)
        | None => row_mask df rest
        end
  end.


(** ** Tables and selections for the examples of the filters *)

(** Four measurements from two machines, with the three category
    columns of the page; the limits of the third row differ. *)
Definition shop_frame : DataFrame :=
  {| nrows := 4;
     columns := list_to_map
       [ ("MachineId", Object ["M1"; "M1"; "M2"; "M2"]);
         ("MaterialDesc", Object ["steel"; "brass"; "steel"; "brass"]);
         ("DimensionDesc", Object ["width"; "width"; "length"; "width"]);
         ("MeasValue", Float64 [9.9%float; 10.0%float; 10.1%float;
                                10.2%float]);
         ("LSL", Float64 [9.8%float; 9.8%float; 9.5%float; 9.8%float]);
         ("USL", Float64 [10.2%float; 10.2%float; 10.5%float; 10.2%float]);
         ("Gage_RR", Float64 [15%float; 15%float; 15%float; 15%float]) ] |}.

(** The measurements of [example_frame] with other limits and another
    Gage R&R after the first row. *)
Definition mixed_frame : DataFrame :=
  {| nrows := 3;
     columns := list_to_map
       [ ("MeasValue", Float64 [(-0.05)%float; 0%float; 0.05%float]);
         ("LSL", Float64 [9.8%float; 9.0%float; 9.0%float]);
         ("USL", Float64 [10.2%float; 11.0%float; 11.0%float]);
         ("Gage_RR", Float64 [15%float; 30%float; 30%float]) ] |}.

(** Limits without measurements. *)
Definition limits_only_frame : DataFrame :=
  {| nrows := 2;
     columns := list_to_map
       [ ("LSL", Float64 [9.8%float; 9.8%float]);
         ("USL", Float64 [10.2%float; 10.2%float]) ] |}.

(** A file with a header line and no row. *)
Definition headers_only_frame : DataFrame :=
  {| nrows := 0;
     columns := list_to_map
       [ ("MeasValue", Float64 []); ("LSL", Float64 []);
         ("USL", Float64 []); ("Gage_RR", Float64 []) ] |}.

(** A user who selects the first option of every widget. *)
Definition choose_first (label : string) (options : list value)
  : list value :=
  take 1 options.

(** * Properties *)

(** ** The error monad *)


Lemma bind_Raise {A B} (e : exn) (f : A → exc B) : Raise e ≫= f = Raise e.
Proof. reflexivity. Qed.

Lemma catchable_Ok {A} (a : A) : catchable (Ok a).
Proof. intros e He. discriminate. Qed.

Lemma catchable_ret {A} (a : A) : catchable (mret a : exc A).
Proof. apply catchable_Ok. Qed.

Lemma catchable_bind {A B} (m : exc A) (f : A → exc B) :
  catchable m → (∀ a, catchable (f a)) → catchable (m ≫= f).
Proof.
  intros Hm Hf e. destruct m as [a|e']; simpl.
  - apply Hf.
  - intros [= ->]. now apply Hm.
Qed.

Lemma catchable_if {A} (b : bool) (m1 m2 : exc A) :
  catchable m1 → catchable m2 → catchable (if b then m1 else m2).
Proof. now destruct b. Qed.

Lemma catchable_mapM {A B} (f : A → exc B) (l : list A) :
  (∀ a, catchable (f a)) → catchable (mapM f l).
Proof.
  intros Hf. induction l as [|a l IH]; simpl.
  - apply catchable_ret.
  - apply catchable_bind; [apply Hf|]. intros b.
    apply catchable_bind; [apply IH|]. intros bs. apply catchable_ret.
Qed.

Lemma try_except_Exception_catchable {A} (m : exc A) (h : exn → exc A) :
  catchable m →
  try_except_Exception m h = match m with Ok a => Ok a | Raise e => h e end.
Proof.
  intros Hm. destruct m as [a|e]; simpl; [done|].
  now rewrite (Hm e eq_refl).
Qed.

Create HintDb catch.

#[local] Hint Resolve catchable_Ok catchable_ret : catch.

Ltac catchable_steps :=
  repeat first
    [ solve [auto with catch]
    | apply catchable_if
    | apply catchable_mapM; intros ?
    | apply catchable_bind; [|intros ?] ].

(** ** What the operations raise *)

Lemma catchable_dict_getitem d k : catchable (dict_getitem d k).
Proof. unfold dict_getitem. destruct (d !! k); intros e [= <-]; done. Qed.

Lemma catchable_list_getitem {A} (l : list A) i : catchable (list_getitem l i).
Proof. unfold list_getitem. destruct (l !! i); intros e [= <-]; done. Qed.

Lemma catchable_frame_getitem df c : catchable (frame_getitem df c).
Proof.
  unfold frame_getitem. destruct (columns df !! c); intros e [= <-]; done.
Qed.

Lemma catchable_array_first s : catchable (array_first s).
Proof. destruct s as [[|x xs]|[|x xs]]; intros e [= <-]; done. Qed.

#[local] Hint Resolve catchable_dict_getitem catchable_list_getitem
  catchable_frame_getitem catchable_array_first : catch.

Section Catchable.

Context `{Pandas}.

Lemma catchable_binop name f a b : catchable (binop name f a b).
Proof. destruct a, b; intros e [= <-]; done. Qed.

Lemma catchable_py_gt a b : catchable (py_gt a b).
Proof. destruct a, b; intros e [= <-]; done. Qed.

Lemma catchable_py_lt a b : catchable (py_lt a b).
Proof. destruct a, b; intros e [= <-]; done. Qed.

Lemma catchable_Series_std s : catchable (Series_std s).
Proof. destruct s; intros e [= <-]; done. Qed.

Lemma catchable_Series_mean s : catchable (Series_mean s).
Proof. destruct s; intros e [= <-]; done. Qed.

Hint Resolve catchable_binop catchable_py_gt catchable_py_lt
  catchable_Series_std catchable_Series_mean : catch.

Lemma catchable_py_min a b : catchable (py_min a b).
Proof. unfold py_min. catchable_steps. Qed.

Lemma catchable_first_unique df c : catchable (first_unique df c).
Proof. unfold first_unique. catchable_steps. Qed.

Lemma catchable_set_score scenario : catchable (set_score scenario).
Proof. unfold set_score, py_div, py_sub. catchable_steps. Qed.

Hint Resolve catchable_py_min catchable_first_unique catchable_set_score
  : catch.

Lemma catchable_recommend std_dev mean lsl usl tolerance gage_rr :
  catchable (recommend std_dev mean lsl usl tolerance gage_rr).
Proof.
  unfold recommend, py_div, py_sub, py_add, py_mul. cbv zeta.
  catchable_steps.
Qed.

(** Whatever the [try] block raises, [except Exception] catches. *)
Lemma catchable_try_block df : catchable (try_block df).
Proof.
  unfold try_block, py_sub.
  pose proof catchable_recommend. catchable_steps.
Qed.

(** In a frame with rows whose columns have one cell per row the array of
    unique values is never empty: reading the first one fails only when
    the column is missing. *)
Lemma first_unique_wf (df : DataFrame) (c : string) (e : exn) :
  wf_frame df →
  len df ≠ 0 →
  first_unique df c = Raise e →
  e = Exn KeyError ("'" +:+ c +:+ "'").
Proof.
  intros Hwf Hlen. unfold first_unique, frame_getitem.
  destruct (columns df !! c) as [s|] eqn:Hcol; simpl; [|congruence].
  apply Hwf in Hcol. unfold len in Hlen.
  destruct s as [[|x xs]|[|x xs]]; simpl in *; congruence.
Qed.

End Catchable.

(** ** Failure results *)

Lemma no_data_fields :
  no_data !! "best_tolerance" = Some VNone
  ∧ no_data !! "message" = Some (VStr "No data available for prediction")
  ∧ no_data !! "success" = Some (VBool false)
  ∧ dom no_data = {[ "best_tolerance"; "message"; "success" ]}.
Proof.
  repeat split.
Qed.

Lemma prediction_error_fields e :
  prediction_error e !! "best_tolerance" = Some VNone
  ∧ prediction_error e !! "message"
    = Some (VStr ("Error in prediction: " +:+ exn_str e))
  ∧ prediction_error e !! "success" = Some (VBool false)
  ∧ dom (prediction_error e) = {[ "best_tolerance"; "message"; "success" ]}.
Proof.
  repeat split.
Qed.

Section Failure.

Context `{Pandas}.

(** On a table with rows the call is the [try] statement. *)
Lemma predict_nonempty (df : DataFrame) :
  len df ≠ 0 →
  Predict_Best_Tolerance_based_on_Material df
  = match try_block df with
    | Ok d => Ok d
    | Raise e => Ok (prediction_error e)
    end.
Proof.
  intros Hlen. unfold Predict_Best_Tolerance_based_on_Material.
  destruct (Nat.eqb_spec (len df) 0) as [?|_]; [done|].
  apply try_except_Exception_catchable, catchable_try_block.
Qed.

(** C6: a table with zero rows gets the no-data dictionary, with
    [success] false and the message "No data available for prediction",
    whatever its columns are and whatever the reductions would compute:
    nothing of the table but its length is looked at. *)
Theorem empty_table_no_data (df : DataFrame) :
  len df = 0 →
  Predict_Best_Tolerance_based_on_Material df = Ok no_data
  ∧ no_data !! "success" = Some (VBool false)
  ∧ no_data !! "message" = Some (VStr "No data available for prediction").
Proof.
  intros Hlen. unfold Predict_Best_Tolerance_based_on_Material.
  rewrite Hlen. repeat split.
Qed.

(** C7: on a table with rows the call returns a dictionary and raises
    nothing; when the [try] block raises an exception [e], that
    dictionary has [success] false and the message
    "Error in prediction: " followed by [str(e)]. *)
Theorem exceptions_become_failure_results (df : DataFrame) :
  len df ≠ 0 →
  ∃ d, Predict_Best_Tolerance_based_on_Material df = Ok d
       ∧ ∀ e, try_block df = Raise e →
              d !! "success" = Some (VBool false)
              ∧ d !! "message"
                = Some (VStr ("Error in prediction: " +:+ exn_str e)).
Proof.
  intros Hlen. rewrite (predict_nonempty df Hlen).
  destruct (try_block df) as [d|e0].
  - exists d. split; [done|]. intros e He. discriminate.
  - exists (prediction_error e0). split; [done|].
    intros e [= <-]. repeat split.
Qed.

(** The two failure paths and the dictionary each returns. *)
Lemma failure_result_shape (df : DataFrame) (d : gmap string value) :
  Predict_Best_Tolerance_based_on_Material df = Ok d →
  len df = 0 ∨ (∃ e, try_block df = Raise e) →
  d = no_data ∨ ∃ e, d = prediction_error e.
Proof.
  intros Hd Hfail.
  destruct (decide (len df = 0)) as [Hlen|Hlen].
  - left. unfold Predict_Best_Tolerance_based_on_Material in Hd.
    rewrite Hlen in Hd. by injection Hd as <-.
  - right. destruct Hfail as [?|[e He]]; [done|]. exists e.
    rewrite (predict_nonempty df Hlen), He in Hd. by injection Hd as <-.
Qed.

(** C10: on both failure paths (no rows, or an exception caught) the
    dictionary returned has [best_tolerance] None, [success] false and a
    message, and no other key: no scenario and no current metric. *)
Theorem failure_result_fields (df : DataFrame) (d : gmap string value) :
  Predict_Best_Tolerance_based_on_Material df = Ok d →
  len df = 0 ∨ (∃ e, try_block df = Raise e) →
  d !! "best_tolerance" = Some VNone
  ∧ d !! "success" = Some (VBool false)
  ∧ (∃ text, d !! "message" = Some (VStr text))
  ∧ dom d = {[ "best_tolerance"; "message"; "success" ]}
  ∧ ∀ k, k ∈ [ "new_lsl"; "new_usl"; "resulting_cp"; "resulting_cpk";
               "resulting_gage_rr"; "current_cp"; "current_cpk";
               "current_gage_rr"; "all_scenarios"; "recommended_scenario" ] →
         d !! k = None.
Proof.
  intros Hd Hfail.
  assert (d !! "best_tolerance" = Some VNone
          ∧ d !! "success" = Some (VBool false)
          ∧ (∃ text, d !! "message" = Some (VStr text))
          ∧ dom d = {[ "best_tolerance"; "message"; "success" ]})
    as (Hbest & Hsuccess & Hmessage & Hdom).
  { destruct (failure_result_shape df d Hd Hfail) as [->|[e ->]].
    - destruct no_data_fields as (? & ? & ? & ?). eauto 6.
    - destruct (prediction_error_fields e) as (? & ? & ? & ?). eauto 6. }
  repeat split; try done.
  intros k Hk. apply not_elem_of_dom. rewrite Hdom.
  clear -Hk. set_unfold. naive_solver.
Qed.

End Failure.

(** ** Running the calculator on floats *)

Ltac eval_dict_lookup :=
  match goal with
  | |- context [@lookup string value (gmap string value) ?I ?k ?d] =>
      let v := eval vm_compute in
                 (@lookup string value (gmap string value) I k d) in
      change (@lookup string value (gmap string value) I k d) with v
  end.

Ltac eval_list_lookup :=
  match goal with
  | |- context [@lookup nat ?A (list ?A) ?I ?i ?l] =>
      let v := eval cbv beta iota delta [lookup list_lookup] in
                 (@lookup nat A (list A) I i l) in
      change (@lookup nat A (list A) I i l) with v
  end.

Ltac split_comparison :=
  match goal with
  | |- context [PrimFloat.ltb ?a ?b] => destruct (PrimFloat.ltb a b) eqn:?
  end.

(** One pass over the binds and the arithmetic, leaving the maps alone. *)
Ltac run_step :=
  cbv beta iota zeta delta
    [recommend mbind exc_bind mret exc_ret binop py_gt py_lt py_min
     py_sub py_add py_mul py_div set_score dict_getitem list_getitem
     mapM app fmap list_fmap].

Ltac run :=
  run_step;
  repeat (first [eval_dict_lookup | eval_list_lookup | split_comparison];
          run_step).

Lemma bind_Ok_inv {A B} (m : exc A) (f : A → exc B) (b : B) :
  m ≫= f = Ok b → ∃ a, m = Ok a ∧ f a = Ok b.
Proof. destruct m as [a|e]; [eauto|discriminate]. Qed.

(** A zero of either sign is not greater than zero. *)
Lemma zero_not_positive (s : float) :
  PrimFloat.eqb s 0 = true → PrimFloat.ltb 0 s = false.
Proof.
  intros Hzero. rewrite FloatAxioms.eqb_spec in Hzero.
  rewrite FloatAxioms.ltb_spec.
  destruct (Prim2SF s) as [[]|[]| |[] mantissa exponent];
    vm_compute in Hzero |- *; try discriminate; reflexivity.
Qed.

Lemma float_literals_differ (a b : float) :
  PrimFloat.eqb a b = false → PrimFloat.eqb a a = true → a ≠ b.
Proof. intros Hab Haa <-. congruence. Qed.

Lemma Some_floats_differ (a b : float) :
  PrimFloat.eqb a b = false → PrimFloat.eqb a a = true → Some a ≠ Some b.
Proof.
  intros Hab Haa Heq. apply (float_literals_differ a b Hab Haa).
  exact (f_equal (default a) Heq).
Qed.

Section Success.

Context `{Pandas}.

(** On six floats [recommend] returns the closed form. *)
Lemma recommend_floats s m l u t g :
  recommend (VFloat s) (VFloat m) (VFloat l) (VFloat u) (VFloat t) (VFloat g)
  = Ok (recommendation s m l u t g).
Proof.
  unfold recommendation, scenario. run.
  all: unfold float_min.
  all: repeat match goal with
              | E : PrimFloat.ltb _ _ = _ |- _ => rewrite ?E; clear E
              end.
  all: reflexivity.
Qed.

(** A Gage R&R that is text makes the first product raise. *)
Lemma recommend_text_gage s m l u t text :
  ∃ e, recommend (VFloat s) (VFloat m) (VFloat l) (VFloat u) (VFloat t)
         (VStr text) = Raise e.
Proof. run; eauto. Qed.

Lemma first_unique_Ok df c v :
  first_unique df c = Ok v →
  (∃ x rest, columns df !! c = Some (Float64 (x :: rest)) ∧ v = VFloat x)
  ∨ (∃ x rest, columns df !! c = Some (Object (x :: rest)) ∧ v = VStr x).
Proof.
  unfold first_unique, frame_getitem.
  destruct (columns df !! c) as [[[|x xs]|[|x xs]]|]; simpl;
    try discriminate; intros [= <-]; [left|right]; eauto.
Qed.

Lemma py_sub_Ok a b v :
  py_sub a b = Ok v →
  ∃ x y, a = VFloat x ∧ b = VFloat y ∧ v = VFloat (PrimFloat.sub x y).
Proof. destruct a, b; simpl; try discriminate. intros [= <-]. eauto. Qed.

(** Under the column contract the [try] block reads six floats off the
    table and hands them to [recommend]. *)
Lemma try_block_reads df ms lsl usl gage_rr :
  reads df ms lsl usl gage_rr →
  try_block df
  = Ok (recommendation (series_std ms) (series_mean ms) lsl usl
          (PrimFloat.sub usl lsl) gage_rr).
Proof.
  intros (Hmeas & [ls Hlsl] & [us Husl] & [gs Hgage]).
  rewrite <- recommend_floats.
  unfold try_block, first_unique, frame_getitem.
  rewrite Hmeas, Hlsl, Husl, Hgage. reflexivity.
Qed.

(** The [try] block completes only under the column contract. *)
Lemma try_block_Ok df d :
  try_block df = Ok d → ∃ ms lsl usl gage_rr, reads df ms lsl usl gage_rr.
Proof.
  unfold try_block. intros Hrun.
  apply bind_Ok_inv in Hrun as (meas & Hmeas & Hrun).
  apply bind_Ok_inv in Hrun as (std_dev & Hstd & Hrun).
  apply bind_Ok_inv in Hrun as (meas' & Hmeas' & Hrun).
  apply bind_Ok_inv in Hrun as (mean & Hmean & Hrun).
  apply bind_Ok_inv in Hrun as (lsl & Hlsl & Hrun).
  apply bind_Ok_inv in Hrun as (usl & Husl & Hrun).
  apply bind_Ok_inv in Hrun as (tolerance & Htol & Hrun).
  apply bind_Ok_inv in Hrun as (gage_rr & Hgage & Hrun).
  unfold frame_getitem in Hmeas, Hmeas'.
  destruct (columns df !! "MeasValue") as [[ms|texts]|] eqn:Hcol;
    [|injection Hmeas as <-; discriminate|discriminate].
  injection Hmeas as <-. injection Hmeas' as <-.
  injection Hstd as <-. injection Hmean as <-.
  apply py_sub_Ok in Htol as (u & l & -> & -> & ->).
  apply first_unique_Ok in Hlsl as [(l' & ls & Hlsl & [= <-])|(? & ? & _ & ?)];
    [|discriminate].
  apply first_unique_Ok in Husl as [(u' & us & Husl & [= <-])|(? & ? & _ & ?)];
    [|discriminate].
  apply first_unique_Ok in Hgage as [(g & gs & Hgage & ->)|(x & ? & _ & ->)].
  - exists ms, l, u, g. repeat split; eauto.
  - destruct (recommend_text_gage (series_std ms) (series_mean ms) l u
                (PrimFloat.sub u l) x) as [e He].
    congruence.
Qed.

(** On a table with rows that keeps the column contract the call returns
    the closed form. *)
Lemma predict_reads df ms lsl usl gage_rr :
  len df ≠ 0 →
  reads df ms lsl usl gage_rr →
  Predict_Best_Tolerance_based_on_Material df
  = Ok (recommendation (series_std ms) (series_mean ms) lsl usl
          (PrimFloat.sub usl lsl) gage_rr).
Proof.
  intros Hlen Hreads.
  rewrite (predict_nonempty df Hlen), (try_block_reads _ _ _ _ _ Hreads).
  reflexivity.
Qed.

(** A result with [success] true comes from a table with rows that keeps
    the column contract. *)
Lemma success_reads df :
  result_field (Predict_Best_Tolerance_based_on_Material df) "success"
  = Some (VBool true) →
  len df ≠ 0 ∧ ∃ ms lsl usl gage_rr, reads df ms lsl usl gage_rr.
Proof.
  intros Hsuccess.
  destruct (decide (len df = 0)) as [Hlen|Hlen].
  - unfold Predict_Best_Tolerance_based_on_Material in Hsuccess.
    rewrite Hlen in Hsuccess. discriminate.
  - split; [done|]. rewrite (predict_nonempty df Hlen) in Hsuccess.
    destruct (try_block df) as [d|e] eqn:Hrun.
    + eapply try_block_Ok, Hrun.
    + discriminate.
Qed.

End Success.

(** ** The claims about a successful computation *)

Local Open Scope float_scope.

Section Recommendation.

Context `{Pandas}.

Lemma recommendation_current_cp s m l u t g :
  recommendation s m l u t g !! "current_cp"
  = Some (VFloat (if 0 <? s then t / (6 * s) else infinity)).
Proof. reflexivity. Qed.

Lemma recommendation_current_cpk s m l u t g :
  recommendation s m l u t g !! "current_cpk"
  = Some (VFloat (if 0 <? s
                  then float_min ((m - l) / (3 * s)) ((u - m) / (3 * s))
                  else infinity)).
Proof. reflexivity. Qed.

Lemma recommendation_success s m l u t g :
  recommendation s m l u t g !! "success" = Some (VBool true).
Proof. reflexivity. Qed.

(** C1: when the computation succeeds, scenario number 1 is the one named
    "Good Quality Tolerance (Cp = 1.33)" and the seven top-level fields of
    the recommendation carry its values; every scenario has the score
    [cp - gage_rr / 100], and the choice does not look at it. *)
Theorem recommendation_is_good_scenario (df : DataFrame) :
  result_field (Predict_Best_Tolerance_based_on_Material df) "success"
  = Some (VBool true) →
  scenario_field (Predict_Best_Tolerance_based_on_Material df) 1 "name"
  = Some (VStr "Good Quality Tolerance (Cp = 1.33)")
  ∧ promoted (Predict_Best_Tolerance_based_on_Material df)
      "best_tolerance" 1 "tolerance"
  ∧ promoted (Predict_Best_Tolerance_based_on_Material df) "new_lsl" 1 "lsl"
  ∧ promoted (Predict_Best_Tolerance_based_on_Material df) "new_usl" 1 "usl"
  ∧ promoted (Predict_Best_Tolerance_based_on_Material df)
      "resulting_cp" 1 "cp"
  ∧ promoted (Predict_Best_Tolerance_based_on_Material df)
      "resulting_cpk" 1 "cpk"
  ∧ promoted (Predict_Best_Tolerance_based_on_Material df)
      "resulting_gage_rr" 1 "gage_rr"
  ∧ promoted (Predict_Best_Tolerance_based_on_Material df)
      "recommended_scenario" 1 "name"
  ∧ ∀ i, (i < 4)%nat →
         ∃ cp gage_rr,
           scenario_float (Predict_Best_Tolerance_based_on_Material df) i "cp"
           = Some cp
           ∧ scenario_float (Predict_Best_Tolerance_based_on_Material df) i
               "gage_rr" = Some gage_rr
           ∧ scenario_float (Predict_Best_Tolerance_based_on_Material df) i
               "score" = Some (cp - gage_rr / 100).
Proof.
  intros Hsuccess.
  apply success_reads in Hsuccess as (Hlen & ms & l & u & g & Hreads).
  rewrite (predict_reads df ms l u g Hlen Hreads).
  repeat split; try (eexists; split; reflexivity).
  intros i Hi.
  destruct i as [|[|[|[|i]]]]; [..|lia]; eexists _, _; repeat split.
Qed.

(** C2: on a table with rows whose standard deviation is positive,
    [current_cp] is (USL[0] - LSL[0]) / (6 * stdDev) and [current_cpk] is
    the minimum of (mean - LSL[0]) / (3 * stdDev) and
    (USL[0] - mean) / (3 * stdDev). *)
Theorem current_capability (df : DataFrame) (ms : list float)
    (lsl usl gage_rr : float) :
  len df ≠ 0%nat →
  reads df ms lsl usl gage_rr →
  (0 <? series_std ms) = true →
  result_field (Predict_Best_Tolerance_based_on_Material df) "success"
  = Some (VBool true)
  ∧ result_field (Predict_Best_Tolerance_based_on_Material df) "current_cp"
    = Some (VFloat ((usl - lsl) / (6 * series_std ms)))
  ∧ result_field (Predict_Best_Tolerance_based_on_Material df) "current_cpk"
    = Some (VFloat (float_min
                      ((series_mean ms - lsl) / (3 * series_std ms))
                      ((usl - series_mean ms) / (3 * series_std ms)))).
Proof.
  intros Hlen Hreads Hpositive.
  rewrite (predict_reads df ms lsl usl gage_rr Hlen Hreads).
  unfold result_field.
  rewrite recommendation_current_cp, recommendation_current_cpk, Hpositive.
  repeat split.
Qed.

(** C8: on a table with rows whose standard deviation is zero, the call
    returns a successful result in which [current_cp] and [current_cpk]
    are positive infinity. *)
Theorem zero_deviation_infinite_capability (df : DataFrame)
    (ms : list float) (lsl usl gage_rr : float) :
  len df ≠ 0%nat →
  reads df ms lsl usl gage_rr →
  (series_std ms =? 0) = true →
  ∃ d, Predict_Best_Tolerance_based_on_Material df = Ok d
       ∧ d !! "success" = Some (VBool true)
       ∧ d !! "current_cp" = Some (VFloat infinity)
       ∧ d !! "current_cpk" = Some (VFloat infinity).
Proof.
  intros Hlen Hreads Hzero. apply zero_not_positive in Hzero.
  rewrite (predict_reads df ms lsl usl gage_rr Hlen Hreads).
  eexists. split; [reflexivity|].
  rewrite recommendation_current_cp, recommendation_current_cpk, Hzero.
  repeat split.
Qed.

(** C5: in every scenario of a successful computation [cpk] is the value
    of [cp], and the limits are [mean - tolerance / 2] and
    [mean + tolerance / 2], for the mean of MeasValue. *)
Theorem scenario_cpk_and_limits (df : DataFrame) :
  result_field (Predict_Best_Tolerance_based_on_Material df) "success"
  = Some (VBool true) →
  ∃ ms, columns df !! "MeasValue" = Some (Float64 ms)
        ∧ scenario_count (Predict_Best_Tolerance_based_on_Material df)
          = Some 4%nat
        ∧ ∀ i, (i < 4)%nat →
            ∃ tolerance cp,
              scenario_float (Predict_Best_Tolerance_based_on_Material df) i
                "tolerance" = Some tolerance
              ∧ scenario_float (Predict_Best_Tolerance_based_on_Material df) i
                  "cp" = Some cp
              ∧ scenario_float (Predict_Best_Tolerance_based_on_Material df) i
                  "cpk" = Some cp
              ∧ scenario_float (Predict_Best_Tolerance_based_on_Material df) i
                  "lsl" = Some (series_mean ms - tolerance / 2)
              ∧ scenario_float (Predict_Best_Tolerance_based_on_Material df) i
                  "usl" = Some (series_mean ms + tolerance / 2).
Proof.
  intros Hsuccess.
  apply success_reads in Hsuccess as (Hlen & ms & l & u & g & Hreads).
  rewrite (predict_reads df ms l u g Hlen Hreads).
  exists ms. split; [apply Hreads|]. split; [reflexivity|].
  intros i Hi.
  destruct i as [|[|[|[|i]]]]; [..|lia]; eexists _, _; repeat split.
Qed.

End Recommendation.

Section Scenarios.

Context `{Pandas}.

(** C3, as the code has it: four scenarios, with the tolerances
    [6 * stdDev], [6 * stdDev * 1.33], [6 * stdDev * 1.67] and
    [currentGageRR * currentTolerance / 10], the last with the cp
    [tolerance / (6 * stdDev)].  With stdDev 0.05, LSL 9.8, USL 10.2 and
    Gage_RR 15.0 the products and quotients are those of binary64: the
    Minimum tolerance is 0.30000000000000004 with cp 1.0, the Good
    tolerance is 0.39900000000000008 and its gage_rr
    15.037593984962349. *)
Theorem four_scenarios (df : DataFrame) (ms : list float)
    (lsl usl gage_rr : float) :
  len df ≠ 0%nat →
  reads df ms lsl usl gage_rr →
  scenario_count (Predict_Best_Tolerance_based_on_Material df) = Some 4%nat
  ∧ scenario_field (Predict_Best_Tolerance_based_on_Material df) 0 "name"
    = Some (VStr "Minimum Acceptable Tolerance (Cp = 1.0)")
  ∧ scenario_float (Predict_Best_Tolerance_based_on_Material df) 0 "tolerance"
    = Some (6 * series_std ms)
  ∧ scenario_field (Predict_Best_Tolerance_based_on_Material df) 1 "name"
    = Some (VStr "Good Quality Tolerance (Cp = 1.33)")
  ∧ scenario_float (Predict_Best_Tolerance_based_on_Material df) 1 "tolerance"
    = Some (6 * series_std ms * 1.33)
  ∧ scenario_field (Predict_Best_Tolerance_based_on_Material df) 2 "name"
    = Some (VStr "High Quality Tolerance (Cp = 1.67)")
  ∧ scenario_float (Predict_Best_Tolerance_based_on_Material df) 2 "tolerance"
    = Some (6 * series_std ms * 1.67)
  ∧ scenario_field (Predict_Best_Tolerance_based_on_Material df) 3 "name"
    = Some (VStr "Excellent Measurement System (Gage R&R = 10%)")
  ∧ scenario_float (Predict_Best_Tolerance_based_on_Material df) 3 "tolerance"
    = Some (gage_rr * (usl - lsl) / 10)
  ∧ scenario_float (Predict_Best_Tolerance_based_on_Material df) 3 "cp"
    = Some (gage_rr * (usl - lsl) / 10 / (6 * series_std ms))
  ∧ (series_std ms = 0.05 → lsl = 9.8 → usl = 10.2 → gage_rr = 15.0 →
     scenario_float (Predict_Best_Tolerance_based_on_Material df) 0
       "tolerance" = Some 0.30000000000000004
     ∧ scenario_float (Predict_Best_Tolerance_based_on_Material df) 0 "cp"
       = Some 1.0
     ∧ scenario_float (Predict_Best_Tolerance_based_on_Material df) 1
         "tolerance" = Some 0.39900000000000008
     ∧ scenario_float (Predict_Best_Tolerance_based_on_Material df) 1
         "gage_rr" = Some 15.037593984962349).
Proof.
  intros Hlen Hreads.
  rewrite (predict_reads df ms lsl usl gage_rr Hlen Hreads).
  do 10 (split; [reflexivity|]).
  intros Hs -> -> ->. rewrite Hs.
  repeat split; vm_compute; reflexivity.
Qed.

(** C4, as the code has it: in the scenarios Minimum, Good and High,
    [gage_rr] is the binary64 quotient of
    [currentGageRR * currentTolerance] by the scenario's tolerance; in the
    scenario Excellent [gage_rr] is 10.0 and the tolerance is
    [currentGageRR * currentTolerance / 10]. *)
Theorem gage_rr_inverse_to_tolerance (df : DataFrame) (ms : list float)
    (lsl usl gage_rr : float) :
  len df ≠ 0%nat →
  reads df ms lsl usl gage_rr →
  (∀ i, (i < 3)%nat →
     ∃ tolerance,
       scenario_float (Predict_Best_Tolerance_based_on_Material df) i
         "tolerance" = Some tolerance
       ∧ scenario_float (Predict_Best_Tolerance_based_on_Material df) i
           "gage_rr" = Some (gage_rr * (usl - lsl) / tolerance))
  ∧ scenario_float (Predict_Best_Tolerance_based_on_Material df) 3 "gage_rr"
    = Some 10.0
  ∧ scenario_float (Predict_Best_Tolerance_based_on_Material df) 3 "tolerance"
    = Some (gage_rr * (usl - lsl) / 10).
Proof.
  intros Hlen Hreads.
  rewrite (predict_reads df ms lsl usl gage_rr Hlen Hreads).
  repeat split.
  intros i Hi.
  destruct i as [|[|[|i]]]; [..|lia]; eexists; repeat split.
Qed.

(** C9, as the code has it: under the column contract the forecast is
    [T / (6 * stdDev)] and [currentGageRR * currentTolerance / T], for
    every [T] and every standard deviation; with [T] 0.3 and stdDev 0.05
    the first is the binary64 quotient 0.99999999999999978. *)
Theorem forecast_values (df : DataFrame) (ms : list float)
    (lsl usl gage_rr T : float) :
  reads df ms lsl usl gage_rr →
  forecast df (VFloat T)
  = Ok (VFloat (T / (6 * series_std ms)),
        VFloat (gage_rr * (usl - lsl) / T))
  ∧ (T = 0.3 → series_std ms = 0.05 →
     forecast df (VFloat T)
     = Ok (VFloat 0.99999999999999978, VFloat (gage_rr * (usl - lsl) / 0.3))).
Proof.
  intros (Hmeas & [ls Hlsl] & [us Husl] & [gs Hgage]).
  assert (forecast df (VFloat T)
          = Ok (VFloat (T / (6 * series_std ms)),
                VFloat (gage_rr * (usl - lsl) / T))) as Hrun.
  { unfold forecast, first_unique, frame_getitem, has_column.
    rewrite Hmeas, Hlsl, Husl, Hgage. reflexivity. }
  split; [exact Hrun|].
  intros -> Hs. rewrite Hrun, Hs. reflexivity.
Qed.

End Scenarios.

(** ** The example tables *)

Lemma measurements_reads (x : float) (xs : list float)
    (lsl usl gage_rr : float) :
  reads (measurements (x :: xs) lsl usl gage_rr) (x :: xs) lsl usl gage_rr.
Proof. repeat split; eexists; reflexivity. Qed.

Lemma measurements_len (x : float) (xs : list float)
    (lsl usl gage_rr : float) :
  len (measurements (x :: xs) lsl usl gage_rr) ≠ 0%nat.
Proof. discriminate. Qed.

Lemma example_frame_deviation :
  series_std [-0.05; 0; 0.05] = 0.05 ∧ series_mean [-0.05; 0; 0.05] = 0.
Proof. split; vm_compute; reflexivity. Qed.

Lemma constant_frame_deviation : series_std [10; 10; 10] = 0.
Proof. vm_compute. reflexivity. Qed.

(** A missing column, text where numbers are expected and an empty array
    of unique values each end in a failure result with the text of the
    exception. *)
Example missing_column_message :
  result_field (Predict_Best_Tolerance_based_on_Material frame_without_limits)
    "message" = Some (VStr "Error in prediction: 'LSL'").
Proof. vm_compute. reflexivity. Qed.

Example text_limits_message :
  result_field
    (Predict_Best_Tolerance_based_on_Material frame_with_text_limits)
    "message"
  = Some (VStr "Error in prediction: unsupported operand type(s) for -").
Proof. vm_compute. reflexivity. Qed.

Example hollow_limits_message :
  result_field
    (Predict_Best_Tolerance_based_on_Material frame_with_hollow_limits)
    "message"
  = Some (VStr
      "Error in prediction: index 0 is out of bounds for axis 0 with size 0").
Proof. vm_compute. reflexivity. Qed.

(** On the example table the scenario recommended is not the one with the
    highest score: High and Excellent both score more than Good. *)
Example recommended_is_not_best_score :
  result_field (Predict_Best_Tolerance_based_on_Material example_frame)
    "recommended_scenario" = Some (VStr "Good Quality Tolerance (Cp = 1.33)")
  ∧ scenario_float (Predict_Best_Tolerance_based_on_Material example_frame)
      1 "score" = Some 1.1796240601503767
  ∧ scenario_float (Predict_Best_Tolerance_based_on_Material example_frame)
      2 "score" = Some 1.5502395209580841
  ∧ scenario_float (Predict_Best_Tolerance_based_on_Material example_frame)
      3 "score" = Some 1.8999999999999926
  ∧ (1.1796240601503767 <? 1.5502395209580841) = true.
Proof. repeat split; vm_compute; reflexivity. Qed.

(** On the example table the products [gage_rr * tolerance] of all four
    scenarios happen to come out as [currentGageRR * currentTolerance]. *)
Example example_frame_products :
  ∀ i, (i < 4)%nat →
    product_equals
      (scenario_float (Predict_Best_Tolerance_based_on_Material example_frame)
         i "gage_rr")
      (scenario_float (Predict_Best_Tolerance_based_on_Material example_frame)
         i "tolerance")
      (15 * (10.2 - 9.8)) = true.
Proof.
  intros i Hi.
  destruct i as [|[|[|[|i]]]]; [..|lia]; vm_compute; reflexivity.
Qed.

(** With three equal measurements the Minimum tolerance is 0, its gage_rr
    is infinite and their product is not a number. *)
Example constant_frame_product :
  scenario_float (Predict_Best_Tolerance_based_on_Material constant_frame)
    0 "tolerance" = Some 0
  ∧ scenario_float (Predict_Best_Tolerance_based_on_Material constant_frame)
      0 "gage_rr" = Some infinity
  ∧ product_equals
      (scenario_float (Predict_Best_Tolerance_based_on_Material constant_frame)
         0 "gage_rr")
      (scenario_float (Predict_Best_Tolerance_based_on_Material constant_frame)
         0 "tolerance")
      (15 * (10.2 - 9.8)) = false.
Proof. repeat split; vm_compute; reflexivity. Qed.

(** On the example table the values the code computes are within 1e-15
    of the decimal values 0.3, 0.399 and 1.0, and the Good gage_rr within
    1e-12 of 15.0 * 0.4 / 0.399. *)
Example example_values_are_close :
  close_to (scenario_float
              (Predict_Best_Tolerance_based_on_Material example_frame)
              0 "tolerance") 0.3 1e-15 = true
  ∧ close_to (scenario_float
                (Predict_Best_Tolerance_based_on_Material example_frame)
                1 "tolerance") 0.399 1e-15 = true
  ∧ close_to (scenario_float
                (Predict_Best_Tolerance_based_on_Material example_frame)
                1 "gage_rr") (15.0 * 0.4 / 0.399) 1e-12 = true
  ∧ close_to (Some (forecast_cp 0 (forecast example_frame (VFloat 0.3))))
      1.0 1e-15 = true.
Proof. repeat split; vm_compute; reflexivity. Qed.

(** ** The claims at the example tables *)

Lemma empty_table_no_data_witness :
  Predict_Best_Tolerance_based_on_Material empty_frame = Ok no_data
  ∧ no_data !! "success" = Some (VBool false)
  ∧ no_data !! "message" = Some (VStr "No data available for prediction").
Proof. apply (empty_table_no_data empty_frame). reflexivity. Defined.

Lemma exceptions_become_failure_results_witness :
  ∃ d, Predict_Best_Tolerance_based_on_Material frame_without_limits = Ok d
       ∧ ∀ e, try_block frame_without_limits = Raise e →
              d !! "success" = Some (VBool false)
              ∧ d !! "message"
                = Some (VStr ("Error in prediction: " +:+ exn_str e)).
Proof.
  apply (exceptions_become_failure_results frame_without_limits).
  simpl. lia.
Defined.

Lemma failure_result_fields_witness :
  prediction_error (Exn KeyError "'LSL'") !! "best_tolerance" = Some VNone
  ∧ dom (prediction_error (Exn KeyError "'LSL'"))
    = {[ "best_tolerance"; "message"; "success" ]}.
Proof.
  destruct (failure_result_fields frame_without_limits
              (prediction_error (Exn KeyError "'LSL'")))
    as (Hbest & _ & _ & Hdom & _).
  - reflexivity.
  - right. eexists. reflexivity.
  - split; [exact Hbest|exact Hdom].
Defined.

Lemma recommendation_is_good_scenario_witness :
  scenario_field (Predict_Best_Tolerance_based_on_Material example_frame)
    1 "name" = Some (VStr "Good Quality Tolerance (Cp = 1.33)")
  ∧ promoted (Predict_Best_Tolerance_based_on_Material example_frame)
      "best_tolerance" 1 "tolerance".
Proof.
  destruct (recommendation_is_good_scenario example_frame)
    as (Hname & Htolerance & _).
  - vm_compute. reflexivity.
  - split; [exact Hname|exact Htolerance].
Defined.

Lemma current_capability_witness :
  result_field (Predict_Best_Tolerance_based_on_Material example_frame)
    "current_cp"
  = Some (VFloat ((10.2 - 9.8) / (6 * series_std [-0.05; 0; 0.05]))).
Proof.
  destruct (current_capability example_frame [-0.05; 0; 0.05] 9.8 10.2 15)
    as (_ & Hcp & _).
  - simpl. lia.
  - apply measurements_reads.
  - vm_compute. reflexivity.
  - exact Hcp.
Defined.

Lemma zero_deviation_infinite_capability_witness :
  ∃ d, Predict_Best_Tolerance_based_on_Material constant_frame = Ok d
       ∧ d !! "success" = Some (VBool true)
       ∧ d !! "current_cp" = Some (VFloat infinity)
       ∧ d !! "current_cpk" = Some (VFloat infinity).
Proof.
  apply (zero_deviation_infinite_capability constant_frame [10; 10; 10]
           9.8 10.2 15).
  - simpl. lia.
  - apply measurements_reads.
  - vm_compute. reflexivity.
Defined.

Lemma scenario_cpk_and_limits_witness :
  ∃ ms, columns example_frame !! "MeasValue" = Some (Float64 ms)
        ∧ scenario_count (Predict_Best_Tolerance_based_on_Material
                            example_frame) = Some 4%nat.
Proof.
  destruct (scenario_cpk_and_limits example_frame)
    as (ms & Hmeas & Hcount & _).
  - vm_compute. reflexivity.
  - exists ms. split; [exact Hmeas|exact Hcount].
Defined.

Lemma four_scenarios_witness :
  scenario_count (Predict_Best_Tolerance_based_on_Material example_frame)
  = Some 4%nat
  ∧ scenario_float (Predict_Best_Tolerance_based_on_Material example_frame)
      0 "tolerance" = Some 0.30000000000000004.
Proof.
  destruct (four_scenarios example_frame [-0.05; 0; 0.05] 9.8 10.2 15)
    as (Hcount & _ & _ & _ & _ & _ & _ & _ & _ & _ & Hexample).
  - simpl. lia.
  - apply measurements_reads.
  - assert (series_std [-0.05; 0; 0.05] = 0.05) as Hdeviation
      by (vm_compute; reflexivity).
    destruct (Hexample Hdeviation eq_refl eq_refl eq_refl)
      as (Htolerance & _).
    split; [exact Hcount|exact Htolerance].
Defined.

Lemma gage_rr_inverse_to_tolerance_witness :
  scenario_float (Predict_Best_Tolerance_based_on_Material wide_frame)
    3 "gage_rr" = Some 10.0
  ∧ scenario_float (Predict_Best_Tolerance_based_on_Material wide_frame)
      3 "tolerance" = Some (15 * (10.5 - 9.5) / 10).
Proof.
  destruct (gage_rr_inverse_to_tolerance wide_frame [-0.05; 0; 0.05]
              9.5 10.5 15) as (_ & Hgage & Htolerance).
  - simpl. lia.
  - apply measurements_reads.
  - split; [exact Hgage|exact Htolerance].
Defined.

Lemma forecast_values_witness :
  forecast example_frame (VFloat 0.3)
  = Ok (VFloat 0.99999999999999978, VFloat (15 * (10.2 - 9.8) / 0.3)).
Proof.
  destruct (forecast_values example_frame [-0.05; 0; 0.05] 9.8 10.2 15 0.3)
    as (_ & Hexample).
  - apply measurements_reads.
  - apply Hexample; [reflexivity|vm_compute; reflexivity].
Defined.

(** ** Where the decimal values of the specification are not met *)

(** The example of C3: a table with stdDev 0.05, LSL 9.8, USL 10.2 and
    Gage_RR 15.0.  Its Minimum tolerance is 0.30000000000000004, which is
    not the float 0.3, so the four values of the claim do not all hold. *)
Lemma example_tolerance_is_not_0_3 :
  len example_frame ≠ 0%nat
  ∧ reads example_frame [-0.05; 0; 0.05] 9.8 10.2 15.0
  ∧ series_std [-0.05; 0; 0.05] = 0.05
  ∧ scenario_float (Predict_Best_Tolerance_based_on_Material example_frame)
      0 "tolerance" = Some 0.30000000000000004
  ∧ (0.30000000000000004 =? 0.3) = false
  ∧ ¬ (scenario_float (Predict_Best_Tolerance_based_on_Material example_frame)
         0 "tolerance" = Some 0.3
       ∧ scenario_float
           (Predict_Best_Tolerance_based_on_Material example_frame)
           0 "cp" = Some 1.0
       ∧ scenario_float
           (Predict_Best_Tolerance_based_on_Material example_frame)
           1 "tolerance" = Some 0.399
       ∧ scenario_float
           (Predict_Best_Tolerance_based_on_Material example_frame)
           1 "gage_rr" = Some (15.0 * 0.4 / 0.399)).
Proof.
  assert (scenario_float
            (Predict_Best_Tolerance_based_on_Material example_frame)
            0 "tolerance" = Some 0.30000000000000004) as Htolerance
    by (vm_compute; reflexivity).
  split; [apply measurements_len|].
  split; [apply measurements_reads|].
  split; [vm_compute; reflexivity|].
  split; [exact Htolerance|].
  split; [reflexivity|].
  intros (Hclaimed & _). rewrite Htolerance in Hclaimed.
  revert Hclaimed. apply Some_floats_differ; reflexivity.
Qed.

(** The invariant of C4 on a table with stdDev 0.05, LSL 9.5, USL 10.5 and
    Gage_RR 15.0: in the Good scenario [gage_rr * tolerance] is
    14.999999999999998 and [currentGageRR * currentTolerance] is 15. *)
Lemma good_scenario_product_is_rounded :
  len wide_frame ≠ 0%nat
  ∧ reads wide_frame [-0.05; 0; 0.05] 9.5 10.5 15.0
  ∧ scenario_float (Predict_Best_Tolerance_based_on_Material wide_frame)
      1 "gage_rr" = Some 37.593984962406005
  ∧ scenario_float (Predict_Best_Tolerance_based_on_Material wide_frame)
      1 "tolerance" = Some 0.39900000000000008
  ∧ 37.593984962406005 * 0.39900000000000008 = 14.999999999999998
  ∧ 15.0 * (10.5 - 9.5) = 15
  ∧ product_equals
      (scenario_float (Predict_Best_Tolerance_based_on_Material wide_frame)
         1 "gage_rr")
      (scenario_float (Predict_Best_Tolerance_based_on_Material wide_frame)
         1 "tolerance")
      (15.0 * (10.5 - 9.5)) = false.
Proof.
  split; [apply measurements_len|].
  split; [apply measurements_reads|].
  repeat split; vm_compute; reflexivity.
Qed.

(** The example of C9: the forecast for the tolerance 0.3 on a table with
    stdDev 0.05 is 0.99999999999999978, which is not 1.0. *)
Lemma forecast_of_0_3_is_not_1 :
  reads example_frame [-0.05; 0; 0.05] 9.8 10.2 15.0
  ∧ series_std [-0.05; 0; 0.05] = 0.05
  ∧ (0 <? 0.3) = true
  ∧ forecast example_frame (VFloat 0.3)
    = Ok (VFloat 0.99999999999999978, VFloat 19.999999999999929)
  ∧ (0.99999999999999978 =? 1.0) = false
  ∧ ¬ (∃ forecast_grr,
         forecast example_frame (VFloat 0.3)
         = Ok (VFloat 1.0, forecast_grr)).
Proof.
  assert (forecast example_frame (VFloat 0.3)
          = Ok (VFloat 0.99999999999999978, VFloat 19.999999999999929))
    as Hrun by (vm_compute; reflexivity).
  split; [apply measurements_reads|].
  split; [vm_compute; reflexivity|].
  split; [reflexivity|].
  split; [exact Hrun|].
  split; [reflexivity|].
  intros [forecast_grr Hclaimed]. rewrite Hrun in Hclaimed.
  apply (f_equal (forecast_cp 0)) in Hclaimed. revert Hclaimed.
  apply float_literals_differ; reflexivity.
Qed.

(** ** Masks *)

Local Open Scope nat_scope.

Lemma select_nil_r {A} (mask : list bool) : select mask (@nil A) = [].
Proof. by destruct mask. Qed.

Lemma select_fmap {A B} (f : A → B) (mask : list bool) (xs : list A) :
  select mask (f <$> xs) = f <$> select mask xs.
Proof.
  revert xs. induction mask as [|b mask IH]; intros [|x xs]; simpl; try done.
  destruct b; simpl; by rewrite IH.
Qed.

(** How many entries a mask keeps depends on the length of the list
    alone. *)
Lemma select_length_eq {A B} (mask : list bool) (xs : list A) (ys : list B) :
  length xs = length ys → length (select mask xs) = length (select mask ys).
Proof.
  revert xs ys.
  induction mask as [|b mask IH]; intros [|x xs] [|y ys] Hlen; simpl in *;
    try done.
  injection Hlen as Hlen. destruct b; simpl; by rewrite (IH xs ys Hlen).
Qed.

Lemma select_length_le {A} (mask : list bool) (xs : list A) :
  length (select mask xs) ≤ length xs.
Proof.
  revert xs. induction mask as [|b mask IH]; intros [|x xs]; simpl; try lia.
  specialize (IH xs). destruct b; simpl; lia.
Qed.

Lemma select_replicate_true {A} (n : nat) (xs : list A) :
  length xs ≤ n → select (replicate n true) xs = xs.
Proof.
  revert xs. induction n as [|n IH]; intros [|x xs] Hlen; simpl in *;
    try done; try lia.
  rewrite IH; [done|lia].
Qed.

(** Masking twice is masking once with the conjunction. *)
Lemma select_select {A} (mask mask2 : list bool) (xs : list A) :
  select (select mask mask2) (select mask xs)
  = select (zip_with andb mask mask2) xs.
Proof.
  revert mask2 xs.
  induction mask as [|b mask IH]; intros [|b2 mask2] [|x xs]; simpl;
    rewrite ?select_nil_r; try done.
  destruct b; simpl; [|apply IH]. destruct b2; simpl; by rewrite IH.
Qed.


Lemma zip_with_andb_true_r (mask : list bool) (n : nat) :
  length mask ≤ n → zip_with andb mask (replicate n true) = mask.
Proof.
  revert n. induction mask as [|b mask IH]; intros [|n] Hlen; simpl in *;
    try done; try lia.
  rewrite andb_true_r, IH; [done|lia].
Qed.

Lemma zip_with_andb_assoc (m1 m2 m3 : list bool) :
  zip_with andb (zip_with andb m1 m2) m3
  = zip_with andb m1 (zip_with andb m2 m3).
Proof.
  revert m2 m3. induction m1 as [|b1 m1 IH]; intros [|b2 m2] [|b3 m3];
    simpl; try done.
  by rewrite andb_assoc, IH.
Qed.


(** ** Masks on columns and frames *)

Lemma series_values_length (s : Series) :
  length (series_values s) = series_len s.
Proof. destruct s; simpl; by rewrite length_fmap. Qed.

Lemma isin_length (s : Series) (values : list value) :
  length (isin s values) = series_len s.
Proof. unfold isin. by rewrite length_fmap, series_values_length. Qed.

Lemma series_values_mask (mask : list bool) (s : Series) :
  series_values (Series_mask mask s) = select mask (series_values s).
Proof. destruct s; simpl; by rewrite select_fmap. Qed.

(** The mask of a masked column is the masked mask of the column. *)
Lemma isin_mask (mask : list bool) (s : Series) (values : list value) :
  isin (Series_mask mask s) values = select mask (isin s values).
Proof. unfold isin. by rewrite series_values_mask, select_fmap. Qed.

Lemma series_len_mask (mask : list bool) (s : Series) :
  series_len (Series_mask mask s)
  = length (select mask (seq 0 (series_len s))).
Proof.
  destruct s; simpl; apply select_length_eq; by rewrite length_seq.
Qed.

Lemma Series_mask_mask (mask mask2 : list bool) (s : Series) :
  Series_mask (select mask mask2) (Series_mask mask s)
  = Series_mask (zip_with andb mask mask2) s.
Proof. destruct s; simpl; by rewrite select_select. Qed.

Lemma frame_mask_lookup (df : DataFrame) (mask : list bool) (c : string) :
  columns (frame_mask df mask) !! c = Series_mask mask <$> columns df !! c.
Proof. unfold frame_mask. simpl. apply lookup_fmap. Qed.

Lemma frame_eq (df1 df2 : DataFrame) :
  nrows df1 = nrows df2 → columns df1 = columns df2 → df1 = df2.
Proof. destruct df1, df2. simpl. by intros -> ->. Qed.

(** A mask keeps a frame well formed. *)
Lemma frame_mask_wf (df : DataFrame) (mask : list bool) :
  wf_frame df → wf_frame (frame_mask df mask).
Proof.
  intros Hwf c s. rewrite frame_mask_lookup.
  destruct (columns df !! c) as [s0|] eqn:Hcol; simpl; [|done].
  intros [= <-]. rewrite series_len_mask, (Hwf c s0 Hcol). done.
Qed.

Lemma frame_mask_mask (df : DataFrame) (mask mask2 : list bool) :
  frame_mask (frame_mask df mask) (select mask mask2)
  = frame_mask df (zip_with andb mask mask2).
Proof.
  apply frame_eq; simpl.
  - rewrite <- select_select. apply select_length_eq.
    by rewrite length_seq.
  - rewrite <- map_fmap_compose. apply map_fmap_ext.
    intros c s _. apply Series_mask_mask.
Qed.

Lemma frame_mask_all (df : DataFrame) :
  wf_frame df → frame_mask df (replicate (nrows df) true) = df.
Proof.
  intros Hwf. apply frame_eq; simpl.
  - rewrite select_replicate_true; by rewrite length_seq.
  - rewrite <- (map_fmap_id (columns df)) at 2. apply map_fmap_ext.
    intros c s Hcol. apply Hwf in Hcol.
    destruct s; simpl in *; by rewrite select_replicate_true by lia.
Qed.

(** ** The filters *)

Lemma is_empty_true {A} (l : list A) : is_empty l = true ↔ l = [].
Proof. by destruct l. Qed.

Lemma is_empty_false {A} (l : list A) : is_empty l = false ↔ l ≠ [].
Proof. by destruct l. Qed.

Lemma row_mask_length (df : DataFrame) (items : list (string * list value)) :
  wf_frame df → length (row_mask df items) = nrows df.
Proof.
  intros Hwf. induction items as [|[c vs] items IH]; simpl.
  - by rewrite length_replicate.
  - destruct (is_empty vs); [done|].
    destruct (columns df !! c) as [s|] eqn:Hcol; [|done].
    rewrite length_zip_with, isin_length, (Hwf c s Hcol), IH. lia.
Qed.

(** The loop on a masked frame is one more mask on the frame it started
    from. *)
Lemma filter_loop_mask (df : DataFrame) (mask : list bool)
    (items : list (string * list value)) (result : DataFrame) :
  wf_frame df →
  length mask = nrows df →
  filter_loop (frame_mask df mask) items = Ok result →
  result = frame_mask df (zip_with andb mask (row_mask df items)).
Proof.
  intros Hwf. revert mask.
  induction items as [|[c vs] items IH]; intros mask Hlen; simpl.
  - intros [= <-]. rewrite zip_with_andb_true_r; [done|lia].
  - destruct (is_empty vs); [by apply IH|].
    unfold frame_getitem. rewrite frame_mask_lookup.
    destruct (columns df !! c) as [s|] eqn:Hcol; simpl; [|done].
    rewrite isin_mask, frame_mask_mask. intros Hrun.
    apply IH in Hrun.
    + by rewrite zip_with_andb_assoc in Hrun.
    + rewrite length_zip_with, isin_length, (Hwf c s Hcol). lia.
Qed.

Lemma zip_with_andb_true_l (mask : list bool) (n : nat) :
  length mask ≤ n → zip_with andb (replicate n true) mask = mask.
Proof.
  revert n. induction mask as [|b mask IH]; intros [|n] Hlen; simpl in *;
    try done; try lia.
  rewrite IH; [done|lia].
Qed.

Lemma filter_data_multi_mask (df result : DataFrame)
    (filters_dict : list (string * list value)) :
  wf_frame df →
  filter_data_multi df filters_dict = Ok result →
  result = frame_mask df (row_mask df filters_dict).
Proof.
  intros Hwf. unfold filter_data_multi.
  rewrite <- (frame_mask_all df Hwf) at 1. intros Hrun.
  apply filter_loop_mask in Hrun; [|done|by rewrite length_replicate].
  rewrite zip_with_andb_true_l in Hrun; [done|].
  by rewrite row_mask_length.
Qed.



Lemma frame_mask_is_Some (df : DataFrame) (mask : list bool) (c : string) :
  is_Some (columns (frame_mask df mask) !! c) ↔ is_Some (columns df !! c).
Proof. rewrite frame_mask_lookup. apply fmap_is_Some. Qed.

Lemma filter_loop_outcome (df : DataFrame)
    (items : list (string * list value)) :
  match filter_loop df items with
  | Ok _ => ∀ c vs, (c, vs) ∈ items → vs ≠ [] → is_Some (columns df !! c)
  | Raise e =>
      ∃ c vs, (c, vs) ∈ items ∧ vs ≠ [] ∧ columns df !! c = None
              ∧ e = Exn KeyError ("'" +:+ c +:+ "'")
  end.
Proof.
  revert df. induction items as [|[c vs] items IH]; intros df; simpl.
  - intros c vs Hin. by apply elem_of_nil in Hin.
  - destruct (is_empty vs) eqn:Hvs.
    + apply is_empty_true in Hvs as ->. specialize (IH df).
      destruct (filter_loop df items) as [result|e].
      * intros c' vs' Hin Hne.
        apply elem_of_cons in Hin as [[= -> ->]|Hin]; [done|]. by eapply IH.
      * destruct IH as (c' & vs' & Hin & ?). exists c', vs'.
        split; [by apply elem_of_cons; right|done].
    + apply is_empty_false in Hvs. unfold frame_getitem.
      destruct (columns df !! c) as [s|] eqn:Hcol; simpl.
      * specialize (IH (frame_mask df (isin s vs))).
        destruct (filter_loop _ items) as [result|e].
        -- intros c' vs' Hin Hne.
           apply elem_of_cons in Hin as [[= -> ->]|Hin]; [by rewrite Hcol|].
           eapply frame_mask_is_Some, IH; done.
        -- destruct IH as (c' & vs' & Hin & Hne & Hnone & ->).
           exists c', vs'. split; [by apply elem_of_cons; right|].
           split; [done|]. split; [|done].
           rewrite frame_mask_lookup in Hnone.
           by destruct (columns df !! c').
      * exists c, vs. split; [by apply elem_of_cons; left|done].
Qed.

(** X1: [filter_data_multi] fails only on a missing column that an entry
    with a non-empty list of values names, with the KeyError of that
    column; an entry with an empty list is passed over, missing column
    or not. *)
Theorem filter_data_multi_outcome (df : DataFrame)
    (filters_dict : list (string * list value)) :
  match filter_data_multi df filters_dict with
  | Ok _ =>
      ∀ c vs, (c, vs) ∈ filters_dict → vs ≠ [] → is_Some (columns df !! c)
  | Raise e =>
      ∃ c vs, (c, vs) ∈ filters_dict ∧ vs ≠ [] ∧ columns df !! c = None
              ∧ e = Exn KeyError ("'" +:+ c +:+ "'")
  end.
Proof. apply filter_loop_outcome. Qed.


Lemma select_sublist {A} (mask : list bool) (xs : list A) :
  select mask xs `sublist_of` xs.
Proof.
  revert xs. induction mask as [|b mask IH]; intros [|x xs]; simpl;
    try apply sublist_nil_l.
  destruct b; [by apply sublist_skip|by apply sublist_cons].
Qed.

(** X3: the filtered frame is well formed, has the columns of the frame
    it came from, no more rows, and in each column some of the cells of
    that column, in their order and of the same type. *)
Theorem filter_data_multi_shape (df result : DataFrame)
    (filters_dict : list (string * list value)) :
  wf_frame df →
  filter_data_multi df filters_dict = Ok result →
  wf_frame result
  ∧ nrows result ≤ nrows df
  ∧ dom (columns result) = dom (columns df)
  ∧ ∀ c s, columns df !! c = Some s →
      ∃ s', columns result !! c = Some s'
            ∧ series_values s' `sublist_of` series_values s
            ∧ match s, s' with
              | Float64 _, Float64 _ | Object _, Object _ => True
              | _, _ => False
              end.
Proof.
  intros Hwf Hrun. apply filter_data_multi_mask in Hrun as ->; [|done].
  split; [by apply frame_mask_wf|]. split; [|split].
  - simpl. etrans; [apply select_length_le|]. by rewrite length_seq.
  - simpl. apply dom_fmap_L.
  - intros c s Hcol. exists (Series_mask (row_mask df filters_dict) s).
    rewrite frame_mask_lookup, Hcol. split; [done|].
    rewrite series_values_mask. split; [apply select_sublist|].
    by destruct s.
Qed.

Lemma zip_with_andb_comm (m1 m2 : list bool) :
  zip_with andb m1 m2 = zip_with andb m2 m1.
Proof.
  revert m2. induction m1 as [|b1 m1 IH]; intros [|b2 m2]; simpl; try done.
  by rewrite andb_comm, IH.
Qed.

Lemma zip_with_andb_diag (mask : list bool) : zip_with andb mask mask = mask.
Proof.
  induction mask as [|b mask IH]; simpl; [done|].
  by rewrite andb_diag, IH.
Qed.

(** The mask of a list of entries does not depend on their order. *)
Lemma row_mask_Permutation (df : DataFrame)
    (items1 items2 : list (string * list value)) :
  items1 ≡ₚ items2 → row_mask df items1 = row_mask df items2.
Proof.
  induction 1 as [|[c vs] l1 l2 _ IH|[c1 vs1] [c2 vs2] l|l1 l2 l3 _ IH1 _ IH2];
    simpl.
  - done.
  - by rewrite IH.
  - destruct (is_empty vs1), (is_empty vs2); try done.
    destruct (columns df !! c1) as [s1|], (columns df !! c2) as [s2|];
      try done.
    rewrite <- !zip_with_andb_assoc. f_equal. apply zip_with_andb_comm.
  - congruence.
Qed.

Lemma filter_data_multi_total (df : DataFrame)
    (filters_dict : list (string * list value)) :
  (∀ c vs, (c, vs) ∈ filters_dict → vs ≠ [] → is_Some (columns df !! c)) →
  ∃ result, filter_data_multi df filters_dict = Ok result.
Proof.
  intros Hcols. pose proof (filter_loop_outcome df filters_dict) as Hout.
  unfold filter_data_multi.
  destruct (filter_loop df filters_dict) as [result|e]; [eauto|].
  destruct Hout as (c & vs & Hin & Hne & Hnone & _).
  destruct (Hcols c vs Hin Hne) as [s Hs]. congruence.
Qed.

Lemma filter_data_multi_columns (df result : DataFrame)
    (filters_dict : list (string * list value)) :
  filter_data_multi df filters_dict = Ok result →
  ∀ c vs, (c, vs) ∈ filters_dict → vs ≠ [] → is_Some (columns df !! c).
Proof.
  intros Hrun. pose proof (filter_loop_outcome df filters_dict) as Hout.
  unfold filter_data_multi in Hrun. by rewrite Hrun in Hout.
Qed.

(** X4: the entries of the dictionary can come in any order: on a
    well-formed frame, when the filters succeed for one order they
    succeed for every other, with the same frame. *)
Theorem filter_data_multi_any_order (df result : DataFrame)
    (filters1 filters2 : list (string * list value)) :
  wf_frame df →
  filters1 ≡ₚ filters2 →
  filter_data_multi df filters1 = Ok result →
  filter_data_multi df filters2 = Ok result.
Proof.
  intros Hwf Hperm Hrun.
  destruct (filter_data_multi_total df filters2) as [result2 Hrun2].
  { intros c vs Hin. rewrite <- Hperm in Hin.
    by eapply filter_data_multi_columns. }
  rewrite Hrun2. f_equal.
  apply filter_data_multi_mask in Hrun as ->; [|done].
  apply filter_data_multi_mask in Hrun2 as ->; [|done].
  by rewrite (row_mask_Permutation df filters1 filters2 Hperm).
Qed.

Lemma select_zip_with_andb (mask m1 m2 : list bool) :
  select mask (zip_with andb m1 m2)
  = zip_with andb (select mask m1) (select mask m2).
Proof.
  revert m1 m2.
  induction mask as [|b mask IH]; intros [|b1 m1] [|b2 m2]; simpl;
    rewrite ?select_nil_r; try done.
  - by destruct (if b then _ else _).
  - destruct b; simpl; by rewrite IH.
Qed.

Lemma select_replicate (mask : list bool) (n : nat) (b : bool) :
  select mask (replicate n b)
  = replicate (length (select mask (seq 0 n))) b.
Proof.
  assert (∀ k, select mask (replicate n b)
               = replicate (length (select mask (seq k n))) b) as Hk;
    [|apply Hk].
  revert n. induction mask as [|b' mask IH]; intros [|n] k; simpl; try done.
  destruct b'; simpl; by rewrite (IH n (S k)).
Qed.

(** The mask of a list of entries on a masked frame is the masked mask. *)
Lemma row_mask_mask (df : DataFrame) (mask : list bool)
    (items : list (string * list value)) :
  row_mask (frame_mask df mask) items = select mask (row_mask df items).
Proof.
  induction items as [|[c vs] items IH]; simpl.
  - by rewrite select_replicate.
  - destruct (is_empty vs); [done|].
    rewrite lookup_fmap.
    destruct (columns df !! c) as [s|]; simpl; [|done].
    by rewrite isin_mask, IH, select_zip_with_andb.
Qed.

(** X5: filtering a filtered frame again with the same dictionary changes
    nothing. *)
Theorem filter_data_multi_idempotent (df result : DataFrame)
    (filters_dict : list (string * list value)) :
  wf_frame df →
  filter_data_multi df filters_dict = Ok result →
  filter_data_multi result filters_dict = Ok result.
Proof.
  intros Hwf Hrun.
  destruct (filter_data_multi_total result filters_dict) as [again Hagain].
  { intros c vs Hin Hne.
    pose proof (filter_data_multi_columns _ _ _ Hrun c vs Hin Hne) as Hcol.
    apply filter_data_multi_mask in Hrun as ->; [|done].
    by apply frame_mask_is_Some. }
  rewrite Hagain. f_equal.
  apply filter_data_multi_mask in Hrun as ->; [|done].
  apply filter_data_multi_mask in Hagain as ->; [|by apply frame_mask_wf].
  by rewrite row_mask_mask, frame_mask_mask, zip_with_andb_diag.
Qed.

Lemma filter_loop_app (df : DataFrame)
    (items1 items2 : list (string * list value)) :
  filter_loop df (items1 ++ items2)
  = filter_loop df items1 ≫= λ filtered_df, filter_loop filtered_df items2.
Proof.
  revert df. induction items1 as [|[c vs] items1 IH]; intros df; simpl.
  - done.
  - destruct (is_empty vs); [apply IH|].
    destruct (frame_getitem df c) as [s|e]; simpl; [apply IH|done].
Qed.

(** X6: [filter_data_multi] is [filter_data] applied entry by entry:
    filtering with one entry is [filter_data], and filtering with two
    dictionaries one after the other is filtering with their entries in
    a row, errors included. *)
Theorem filter_data_multi_composes (df : DataFrame) (column : string)
    (selected_values : list value)
    (filters1 filters2 : list (string * list value)) :
  filter_data_multi df [(column, selected_values)]
  = filter_data df column selected_values
  ∧ filter_data_multi df (filters1 ++ filters2)
    = filter_data_multi df filters1
        ≫= λ filtered_df, filter_data_multi filtered_df filters2.
Proof.
  split; [|apply filter_loop_app].
  unfold filter_data_multi, filter_data. simpl.
  destruct (is_empty selected_values); [done|].
  by destruct (frame_getitem df column).
Qed.

(** ** The filters of the page *)












(** ** Loading *)

(** When reading the file raises an exception, [load_csv] raises
    nothing and returns a well-formed frame of one row whose only column,
    Error, holds "Failed to load file: " and the text of the exception;
    when reading succeeds it returns the frame read. *)
Lemma load_csv_failure_frame (e : exn) (read : DataFrame) :
  is_Exception (exn_cls e) = true →
  load_csv (Ok read) = Ok read
  ∧ ∃ df, load_csv (Raise e) = Ok df
          ∧ nrows df = 1
          ∧ wf_frame df
          ∧ dom (columns df) = {[ "Error" ]}
          ∧ columns df !! "Error"
            = Some (Object ["Failed to load file: " +:+ exn_str e]).
Proof.
  intros Hcatch. split; [done|]. unfold load_csv. simpl. rewrite Hcatch.
  eexists. split; [done|]. simpl. split; [done|]. split; [|split].
  - intros c s Hcol. simpl in Hcol.
    apply lookup_singleton_Some in Hcol as [_ <-]. done.
  - by rewrite dom_singleton_L.
  - by rewrite lookup_singleton_eq.
Qed.

(** X8: a failed load is not reported.  [load_csv] turns the exception
    into a frame whose only column is Error; the page does not look at
    it, and its first read, of the MachineId column, raises a KeyError;
    the calculator given that frame reports the missing MeasValue
    column, not the load error. *)
Theorem main_after_failed_load (e : exn)
    (multiselect : string → list value → list value) :
  is_Exception (exn_cls e) = true →
  main_filters (Raise e) multiselect = Raise (Exn KeyError "'MachineId'")
  ∧ ∃ df, load_csv (Raise e) = Ok df
          ∧ dom (columns df) = {[ "Error" ]}
          ∧ ∀ pandas : Pandas,
              result_field
                (@Predict_Best_Tolerance_based_on_Material pandas df)
                "message" = Some (VStr "Error in prediction: 'MeasValue'").
Proof.
  intros Hcatch. split.
  - unfold main_filters, load_csv. simpl. by rewrite Hcatch.
  - unfold load_csv. simpl. rewrite Hcatch. eexists. split; [done|].
    split; [by simpl; rewrite dom_singleton_L|]. done.
Qed.

(** ** Not-a-number and zero *)

Lemma nan_spec (s : float) :
  PrimFloat.eqb s s = false → Prim2SF s = S754_nan.
Proof.
  rewrite FloatAxioms.eqb_spec.
  destruct (Prim2SF s) as [b|b| |b m e]; try done.
  - by destruct b.
  - unfold SFeqb, SFcompare.
    rewrite Z.compare_refl, Pos.compare_cont_refl. by destruct b.
Qed.

Lemma nan_eqb (s : float) : Prim2SF s = S754_nan → PrimFloat.eqb s s = false.
Proof. intros Hs. by rewrite FloatAxioms.eqb_spec, Hs. Qed.

Lemma nan_not_positive (s : float) :
  PrimFloat.eqb s s = false → PrimFloat.ltb 0 s = false.
Proof.
  intros Hs. apply nan_spec in Hs. by rewrite FloatAxioms.ltb_spec, Hs.
Qed.

Lemma nan_mul_l (c s : float) :
  Prim2SF c = S754_nan → Prim2SF (c * s) = S754_nan.
Proof. intros Hc. by rewrite mul_spec, Hc. Qed.

Lemma nan_mul_r (c s : float) :
  Prim2SF s = S754_nan → Prim2SF (c * s) = S754_nan.
Proof. intros Hs. rewrite mul_spec, Hs. by destruct (Prim2SF c). Qed.

Lemma zero_spec (s : float) :
  PrimFloat.eqb s 0 = true → ∃ b, Prim2SF s = S754_zero b.
Proof.
  rewrite FloatAxioms.eqb_spec.
  destruct (Prim2SF s) as [b|[]| |[] m e]; try done. eauto.
Qed.

Lemma zero_eqb (s : float) (b : bool) :
  Prim2SF s = S754_zero b → PrimFloat.eqb s 0 = true.
Proof. intros Hs. by rewrite FloatAxioms.eqb_spec, Hs. Qed.

(** The Good tolerance of a zero deviation is a zero. *)
Lemma good_tolerance_zero (s : float) :
  PrimFloat.eqb s 0 = true → PrimFloat.eqb (6 * s * 1.33) 0 = true.
Proof.
  intros Hs. apply zero_spec in Hs as [b Hs].
  apply (zero_eqb _ b). rewrite !mul_spec, Hs. by destruct b.
Qed.

(** ** More on the calculator and the forecast *)

Section Calculator_more.

Context `{Pandas}.


(** X10: of the columns LSL, USL and Gage_RR only the first cell counts:
    two tables with the same measurements and the same first limits and
    Gage R&R get the same result, whatever their other rows hold. *)
Theorem first_cells_decide (df1 df2 : DataFrame) (ms : list float)
    (lsl usl gage_rr : float) :
  len df1 ≠ 0 →
  len df2 ≠ 0 →
  reads df1 ms lsl usl gage_rr →
  reads df2 ms lsl usl gage_rr →
  Predict_Best_Tolerance_based_on_Material df1
  = Predict_Best_Tolerance_based_on_Material df2.
Proof.
  intros Hlen1 Hlen2 Hreads1 Hreads2.
  by rewrite (predict_reads df1 ms lsl usl gage_rr Hlen1 Hreads1),
    (predict_reads df2 ms lsl usl gage_rr Hlen2 Hreads2).
Qed.

Lemma predict_KeyError (df : DataFrame) (c : string) :
  len df ≠ 0 →
  try_block df = Raise (Exn KeyError ("'" +:+ c +:+ "'")) →
  result_field (Predict_Best_Tolerance_based_on_Material df) "message"
  = Some (VStr ("Error in prediction: '" +:+ c +:+ "'")).
Proof.
  intros Hlen Hrun. by rewrite (predict_nonempty df Hlen), Hrun.
Qed.

(** X11: the message of a failure names the first column that is missing,
    in the order MeasValue, LSL, USL, Gage_RR in which the code reads
    them. *)
Theorem message_names_first_missing_column (df : DataFrame)
    (ms : list float) (lsl usl : float) (ls us : list float) :
  len df ≠ 0 →
  (columns df !! "MeasValue" = None →
   result_field (Predict_Best_Tolerance_based_on_Material df) "message"
   = Some (VStr "Error in prediction: 'MeasValue'"))
  ∧ (columns df !! "MeasValue" = Some (Float64 ms) →
     columns df !! "LSL" = None →
     result_field (Predict_Best_Tolerance_based_on_Material df) "message"
     = Some (VStr "Error in prediction: 'LSL'"))
  ∧ (columns df !! "MeasValue" = Some (Float64 ms) →
     columns df !! "LSL" = Some (Float64 (lsl :: ls)) →
     columns df !! "USL" = None →
     result_field (Predict_Best_Tolerance_based_on_Material df) "message"
     = Some (VStr "Error in prediction: 'USL'"))
  ∧ (columns df !! "MeasValue" = Some (Float64 ms) →
     columns df !! "LSL" = Some (Float64 (lsl :: ls)) →
     columns df !! "USL" = Some (Float64 (usl :: us)) →
     columns df !! "Gage_RR" = None →
     result_field (Predict_Best_Tolerance_based_on_Material df) "message"
     = Some (VStr "Error in prediction: 'Gage_RR'")).
Proof.
  intros Hlen. repeat split.
  - intros Hmeas. apply (predict_KeyError df "MeasValue" Hlen).
    unfold try_block, frame_getitem. by rewrite Hmeas.
  - intros Hmeas Hlsl. apply (predict_KeyError df "LSL" Hlen).
    unfold try_block, first_unique, frame_getitem. by rewrite Hmeas, Hlsl.
  - intros Hmeas Hlsl Husl. apply (predict_KeyError df "USL" Hlen).
    unfold try_block, first_unique, frame_getitem.
    by rewrite Hmeas, Hlsl, Husl.
  - intros Hmeas Hlsl Husl Hgage. apply (predict_KeyError df "Gage_RR" Hlen).
    unfold try_block, first_unique, frame_getitem.
    by rewrite Hmeas, Hlsl, Husl, Hgage.
Qed.

(** X12: when the standard deviation is not a number, as for a single
    measurement, the call still reports success: [current_cp] and
    [current_cpk] are positive infinity and the recommended tolerance
    is not a number. *)
Theorem nan_deviation_succeeds (df : DataFrame) (ms : list float)
    (lsl usl gage_rr : float) :
  len df ≠ 0 →
  reads df ms lsl usl gage_rr →
  PrimFloat.eqb (series_std ms) (series_std ms) = false →
  result_field (Predict_Best_Tolerance_based_on_Material df) "success"
  = Some (VBool true)
  ∧ result_field (Predict_Best_Tolerance_based_on_Material df) "current_cp"
    = Some (VFloat infinity)
  ∧ result_field (Predict_Best_Tolerance_based_on_Material df) "current_cpk"
    = Some (VFloat infinity)
  ∧ ∃ tolerance,
      result_field (Predict_Best_Tolerance_based_on_Material df)
        "best_tolerance" = Some (VFloat tolerance)
      ∧ PrimFloat.eqb tolerance tolerance = false.
Proof.
  intros Hlen Hreads Hnan.
  rewrite (predict_reads df ms lsl usl gage_rr Hlen Hreads).
  unfold result_field.
  rewrite recommendation_current_cp, recommendation_current_cpk,
    (nan_not_positive _ Hnan).
  do 3 (split; [reflexivity|]).
  eexists. split; [reflexivity|].
  apply nan_eqb, nan_mul_l, nan_mul_r, nan_spec, Hnan.
Qed.

(** X13: with a standard deviation of zero the call recommends a
    tolerance of zero and still reports the resulting Cp 1.33. *)
Theorem zero_deviation_zero_tolerance (df : DataFrame) (ms : list float)
    (lsl usl gage_rr : float) :
  len df ≠ 0 →
  reads df ms lsl usl gage_rr →
  PrimFloat.eqb (series_std ms) 0 = true →
  result_field (Predict_Best_Tolerance_based_on_Material df) "resulting_cp"
  = Some (VFloat 1.33)
  ∧ ∃ tolerance,
      result_field (Predict_Best_Tolerance_based_on_Material df)
        "best_tolerance" = Some (VFloat tolerance)
      ∧ PrimFloat.eqb tolerance 0 = true.
Proof.
  intros Hlen Hreads Hzero.
  rewrite (predict_reads df ms lsl usl gage_rr Hlen Hreads).
  split; [reflexivity|]. eexists. split; [reflexivity|].
  by apply good_tolerance_zero.
Qed.

Lemma forecast_reads (df : DataFrame) (ms : list float)
    (lsl usl gage_rr T : float) :
  reads df ms lsl usl gage_rr →
  forecast df (VFloat T)
  = Ok (VFloat (T / (6 * series_std ms)),
        VFloat (gage_rr * (usl - lsl) / T)).
Proof.
  intros (Hmeas & [ls Hlsl] & [us Husl] & [gs Hgage]).
  unfold forecast, first_unique, frame_getitem, has_column.
  rewrite Hmeas, Hlsl, Husl, Hgage. reflexivity.
Qed.

(** X14: the forecast agrees with the scenarios.  Asked for the tolerance
    of the scenario Minimum, Good or High, it returns that scenario's
    gage_rr; asked for the tolerance of the scenario Excellent, it
    returns that scenario's cp. *)
Theorem forecast_agrees_with_scenarios (df : DataFrame) (ms : list float)
    (lsl usl gage_rr : float) :
  len df ≠ 0 →
  reads df ms lsl usl gage_rr →
  (∀ i, i < 3 →
     ∃ tolerance grr cp,
       scenario_float (Predict_Best_Tolerance_based_on_Material df) i
         "tolerance" = Some tolerance
       ∧ scenario_float (Predict_Best_Tolerance_based_on_Material df) i
           "gage_rr" = Some grr
       ∧ forecast df (VFloat tolerance) = Ok (VFloat cp, VFloat grr))
  ∧ ∃ tolerance cp grr,
      scenario_float (Predict_Best_Tolerance_based_on_Material df) 3
        "tolerance" = Some tolerance
      ∧ scenario_float (Predict_Best_Tolerance_based_on_Material df) 3 "cp"
        = Some cp
      ∧ forecast df (VFloat tolerance) = Ok (VFloat cp, VFloat grr).
Proof.
  intros Hlen Hreads.
  rewrite (predict_reads df ms lsl usl gage_rr Hlen Hreads). split.
  - intros i Hi.
    destruct i as [|[|[|i]]]; [..|lia]; eexists _, _, _;
      (split; [reflexivity|]); (split; [reflexivity|]);
      by rewrite (forecast_reads df ms lsl usl gage_rr _ Hreads).
  - eexists _, _, _. split; [reflexivity|]. split; [reflexivity|].
    by rewrite (forecast_reads df ms lsl usl gage_rr _ Hreads).
Qed.

(** X15: on a table with limits but without a MeasValue column the
    forecast of the page raises a NameError, its [std_dev] never having
    been bound, while the calculator returns its failure result. *)
Theorem forecast_without_measurements (df : DataFrame) (lsl usl T : float)
    (ls us : list float) :
  len df ≠ 0 →
  columns df !! "MeasValue" = None →
  columns df !! "LSL" = Some (Float64 (lsl :: ls)) →
  columns df !! "USL" = Some (Float64 (usl :: us)) →
  (∃ e, forecast df (VFloat T) = Raise e ∧ exn_cls e = NameError)
  ∧ result_field (Predict_Best_Tolerance_based_on_Material df) "message"
    = Some (VStr "Error in prediction: 'MeasValue'").
Proof.
  intros Hlen Hmeas Hlsl Husl. split.
  - unfold forecast, first_unique, frame_getitem, has_column.
    rewrite Hmeas, Hlsl, Husl. simpl. eauto.
  - apply (predict_KeyError df "MeasValue" Hlen).
    unfold try_block, frame_getitem. by rewrite Hmeas.
Qed.

(** X16: on a well-formed table without rows the calculator answers that
    there is no data, and the page's own read of the first USL, which
    comes before, raises an IndexError. *)
Theorem forecast_on_empty_table (df : DataFrame) (s : Series) (T : float) :
  wf_frame df →
  len df = 0 →
  columns df !! "USL" = Some s →
  Predict_Best_Tolerance_based_on_Material df = Ok no_data
  ∧ ∃ e, forecast df (VFloat T) = Raise e ∧ exn_cls e = IndexError.
Proof.
  intros Hwf Hlen Hcol. split.
  - unfold Predict_Best_Tolerance_based_on_Material. by rewrite Hlen.
  - apply Hwf in Hcol as Hcells. unfold len in Hlen. rewrite Hlen in Hcells.
    unfold forecast, first_unique, frame_getitem. rewrite Hcol.
    destruct s as [[|x xs]|[|x xs]]; try done; simpl; eauto.
Qed.

End Calculator_more.

(** ** The page on a table that keeps the contract *)

Lemma select_cons_length {A} (mask : list bool) (xs : list A) :
  length (select mask xs) ≠ 0 → ∃ y ys, select mask xs = y :: ys.
Proof. destruct (select mask xs) as [|y ys]; [done|eauto]. Qed.

(** A mask that keeps a row keeps the column contract. *)
Lemma reads_mask (df : DataFrame) (mask : list bool) (ms : list float)
    (lsl usl gage_rr : float) :
  wf_frame df →
  reads df ms lsl usl gage_rr →
  nrows (frame_mask df mask) ≠ 0 →
  ∃ lsl' usl' gage_rr',
    reads (frame_mask df mask) (select mask ms) lsl' usl' gage_rr'.
Proof.
  intros Hwf (Hmeas & [ls Hlsl] & [us Husl] & [gs Hgage]) Hrows.
  assert (∀ c xs, columns df !! c = Some (Float64 xs) →
            ∃ y ys, columns (frame_mask df mask) !! c
                    = Some (Float64 (y :: ys))) as Hfirst.
  { intros c xs Hcol.
    destruct (select_cons_length mask xs) as (y & ys & Hkept).
    - pose proof (frame_mask_wf df mask Hwf c (Float64 (select mask xs)))
        as Hcells.
      rewrite frame_mask_lookup, Hcol in Hcells. simpl in Hcells.
      by rewrite Hcells.
    - exists y, ys. by rewrite frame_mask_lookup, Hcol, <- Hkept. }
  destruct (Hfirst _ _ Hlsl) as (l' & ls' & Hlsl').
  destruct (Hfirst _ _ Husl) as (u' & us' & Husl').
  destruct (Hfirst _ _ Hgage) as (g' & gs' & Hgage').
  exists l', u', g'. split; [by rewrite frame_mask_lookup, Hmeas|].
  split; [by exists ls'|]. split; [by exists us'|by exists gs'].
Qed.

Section Page.

Context `{Pandas}.


(** X18: a successful result has the twelve keys of the recommendation
    and nothing else; the six numbers and the scenario name the page
    prints are a float and a text, and so are the six numbers and the
    name of each of the four scenarios. *)
Theorem success_result_fields (df : DataFrame) (d : gmap string value) :
  Predict_Best_Tolerance_based_on_Material df = Ok d →
  d !! "success" = Some (VBool true) →
  dom d = {[ "best_tolerance"; "new_lsl"; "new_usl"; "resulting_cp";
             "resulting_cpk"; "resulting_gage_rr"; "current_cp";
             "current_cpk"; "current_gage_rr"; "all_scenarios";
             "recommended_scenario"; "success" ]}
  ∧ (∀ k, k ∈ [ "best_tolerance"; "new_lsl"; "new_usl"; "resulting_cp";
                "resulting_cpk"; "resulting_gage_rr" ] →
          ∃ x, d !! k = Some (VFloat x))
  ∧ (∃ name, d !! "recommended_scenario" = Some (VStr name))
  ∧ scenario_count (Ok d) = Some 4
  ∧ ∀ i, i < 4 →
      (∃ name, scenario_field (Ok d) i "name" = Some (VStr name))
      ∧ ∀ k, k ∈ [ "tolerance"; "cp"; "cpk"; "gage_rr"; "lsl"; "usl" ] →
             ∃ x, scenario_field (Ok d) i k = Some (VFloat x).
Proof.
  intros Hrun Hsuccess.
  assert (result_field (Predict_Best_Tolerance_based_on_Material df)
            "success" = Some (VBool true)) as Hs by (by rewrite Hrun).
  apply success_reads in Hs as (Hlen & ms & l & u & g & Hreads).
  rewrite (predict_reads df ms l u g Hlen Hreads) in Hrun.
  injection Hrun as <-.
  split; [reflexivity|]. split; [|split; [|split]].
  - intros k Hk. repeat (apply elem_of_cons in Hk as [->|Hk]; [by eexists|]).
    by apply elem_of_nil in Hk.
  - by eexists.
  - reflexivity.
  - intros i Hi. destruct i as [|[|[|[|i]]]]; [..|lia].
    all: split; [by eexists|].
    all: intros k Hk;
      repeat (apply elem_of_cons in Hk as [->|Hk]; [by eexists|]);
      by apply elem_of_nil in Hk.
Qed.

(** X19: filtering a table that keeps the column contract never leads to
    an error of the calculator: on the filtered table it either answers
    that there is no data, when no row is left, or reports success. *)
Theorem filtered_table_never_errors (df filtered_df : DataFrame)
    (ms : list float) (lsl usl gage_rr : float)
    (filters_dict : list (string * list value)) :
  wf_frame df →
  reads df ms lsl usl gage_rr →
  filter_data_multi df filters_dict = Ok filtered_df →
  (len filtered_df = 0
   ∧ Predict_Best_Tolerance_based_on_Material filtered_df = Ok no_data)
  ∨ (len filtered_df ≠ 0
     ∧ result_field (Predict_Best_Tolerance_based_on_Material filtered_df)
         "success" = Some (VBool true)).
Proof.
  intros Hwf Hreads Hrun.
  apply filter_data_multi_mask in Hrun as ->; [|done].
  destruct (decide (len (frame_mask df (row_mask df filters_dict)) = 0))
    as [Hlen|Hlen].
  - left. split; [done|].
    unfold Predict_Best_Tolerance_based_on_Material. by rewrite Hlen.
  - right. split; [done|].
    destruct (reads_mask df _ ms lsl usl gage_rr Hwf Hreads Hlen)
      as (l' & u' & g' & Hreads').
    by rewrite (predict_reads _ _ _ _ _ Hlen Hreads').
Qed.

(** X20: the number input starts at the current tolerance USL - LSL; for
    that value and a positive standard deviation the forecast Cp is the
    [current_cp] of the calculator. *)
Theorem forecast_default_is_current_cp (df : DataFrame) (ms : list float)
    (lsl usl gage_rr : float) :
  len df ≠ 0 →
  reads df ms lsl usl gage_rr →
  PrimFloat.ltb 0 (series_std ms) = true →
  ∃ cp grr,
    forecast df (VFloat (usl - lsl)) = Ok (VFloat cp, grr)
    ∧ result_field (Predict_Best_Tolerance_based_on_Material df) "current_cp"
      = Some (VFloat cp).
Proof.
  intros Hlen Hreads Hpositive.
  rewrite (forecast_reads df ms lsl usl gage_rr _ Hreads),
    (predict_reads df ms lsl usl gage_rr Hlen Hreads).
  eexists _, _. split; [reflexivity|].
  unfold result_field. by rewrite recommendation_current_cp, Hpositive.
Qed.

End Page.

(** ** The further properties at the example tables *)

Lemma wf_list_to_map (n : nat) (items : list (string * Series)) :
  Forall (λ item, series_len item.2 = n) items →
  wf_frame {| nrows := n; columns := list_to_map items |}.
Proof.
  intros Hall c s Hcol. simpl in *.
  apply elem_of_list_to_map_2 in Hcol.
  by apply (proj1 (Forall_forall _ _) Hall (c, s)).
Qed.

Lemma shop_frame_wf : wf_frame shop_frame.
Proof. apply wf_list_to_map. repeat constructor. Qed.

Lemma headers_only_frame_wf : wf_frame headers_only_frame.
Proof. apply wf_list_to_map. repeat constructor. Qed.

Lemma shop_frame_reads :
  reads shop_frame [9.9%float; 10.0%float; 10.1%float; 10.2%float]
    9.8%float 10.2%float 15%float.
Proof. repeat split; eexists; reflexivity. Qed.


Lemma mixed_frame_reads :
  reads mixed_frame [(-0.05)%float; 0%float; 0.05%float]
    9.8%float 10.2%float 15%float.
Proof. repeat split; eexists; reflexivity. Qed.

(** The machine M1 alone: the first two rows of the shop. *)
Example shop_frame_M1 :
  ∃ result,
    filter_data_multi shop_frame [("MachineId", [VStr "M1"])] = Ok result
    ∧ nrows result = 2
    ∧ columns result !! "MaterialDesc" = Some (Object ["steel"; "brass"]).
Proof. eexists. repeat split. Qed.


Lemma filter_data_multi_shape_witness :
  wf_frame (frame_mask shop_frame [true; true; false; false])
  ∧ nrows (frame_mask shop_frame [true; true; false; false])
    ≤ nrows shop_frame.
Proof.
  destruct (filter_data_multi_shape shop_frame
              (frame_mask shop_frame [true; true; false; false])
              [("MachineId", [VStr "M1"])]) as (Hwf & Hrows & _).
  - exact shop_frame_wf.
  - reflexivity.
  - split; [exact Hwf|exact Hrows].
Defined.

Lemma filter_data_multi_any_order_witness :
  filter_data_multi shop_frame
    [("MaterialDesc", [VStr "steel"]); ("MachineId", [VStr "M1"])]
  = Ok (frame_mask shop_frame [true; false; false; false]).
Proof.
  apply (filter_data_multi_any_order shop_frame _
           [("MachineId", [VStr "M1"]); ("MaterialDesc", [VStr "steel"])]).
  - exact shop_frame_wf.
  - apply Permutation_swap.
  - reflexivity.
Defined.

Lemma filter_data_multi_idempotent_witness :
  filter_data_multi (frame_mask shop_frame [true; true; false; false])
    [("MachineId", [VStr "M1"])]
  = Ok (frame_mask shop_frame [true; true; false; false]).
Proof.
  apply (filter_data_multi_idempotent shop_frame).
  - exact shop_frame_wf.
  - reflexivity.
Defined.


Lemma main_after_failed_load_witness :
  main_filters (Raise (Exn TypeError "no such file")) choose_first
  = Raise (Exn KeyError "'MachineId'").
Proof.
  destruct (main_after_failed_load (Exn TypeError "no such file")
              choose_first) as (Hpage & _).
  - reflexivity.
  - exact Hpage.
Defined.

Lemma first_cells_decide_witness :
  Predict_Best_Tolerance_based_on_Material example_frame
  = Predict_Best_Tolerance_based_on_Material mixed_frame.
Proof.
  apply (first_cells_decide example_frame mixed_frame
           [(-0.05)%float; 0%float; 0.05%float] 9.8%float 10.2%float
           15%float).
  - simpl. lia.
  - simpl. lia.
  - apply measurements_reads.
  - exact mixed_frame_reads.
Defined.

Lemma message_names_first_missing_column_witness :
  result_field (Predict_Best_Tolerance_based_on_Material frame_without_limits)
    "message" = Some (VStr "Error in prediction: 'LSL'").
Proof.
  destruct (message_names_first_missing_column frame_without_limits
              [1%float; 2%float] 0%float 0%float [] [])
    as (_ & Hlsl & _).
  - simpl. lia.
  - apply Hlsl; reflexivity.
Defined.

Lemma nan_deviation_succeeds_witness :
  result_field
    (Predict_Best_Tolerance_based_on_Material
       (measurements [10%float] 9.8%float 10.2%float 15%float))
    "current_cp" = Some (VFloat infinity).
Proof.
  destruct (nan_deviation_succeeds
              (measurements [10%float] 9.8%float 10.2%float 15%float)
              [10%float] 9.8%float 10.2%float 15%float) as (_ & Hcp & _).
  - simpl. lia.
  - apply measurements_reads.
  - vm_compute. reflexivity.
  - exact Hcp.
Defined.

Lemma zero_deviation_zero_tolerance_witness :
  result_field (Predict_Best_Tolerance_based_on_Material constant_frame)
    "resulting_cp" = Some (VFloat 1.33).
Proof.
  destruct (zero_deviation_zero_tolerance constant_frame
              [10%float; 10%float; 10%float] 9.8%float 10.2%float 15%float)
    as (Hcp & _).
  - simpl. lia.
  - apply measurements_reads.
  - vm_compute. reflexivity.
  - exact Hcp.
Defined.

Lemma forecast_agrees_with_scenarios_witness :
  ∃ tolerance cp grr,
    scenario_float (Predict_Best_Tolerance_based_on_Material example_frame) 3
      "tolerance" = Some tolerance
    ∧ scenario_float (Predict_Best_Tolerance_based_on_Material example_frame)
        3 "cp" = Some cp
    ∧ forecast example_frame (VFloat tolerance) = Ok (VFloat cp, VFloat grr).
Proof.
  destruct (forecast_agrees_with_scenarios example_frame
              [(-0.05)%float; 0%float; 0.05%float] 9.8%float 10.2%float
              15%float) as (_ & Hexcellent).
  - simpl. lia.
  - apply measurements_reads.
  - exact Hexcellent.
Defined.

Lemma forecast_without_measurements_witness :
  ∃ e, forecast limits_only_frame (VFloat 0.3) = Raise e
       ∧ exn_cls e = NameError.
Proof.
  destruct (forecast_without_measurements limits_only_frame 9.8%float
              10.2%float 0.3%float [9.8%float] [10.2%float])
    as (Hforecast & _).
  - simpl. lia.
  - reflexivity.
  - reflexivity.
  - reflexivity.
  - exact Hforecast.
Defined.

Lemma forecast_on_empty_table_witness :
  ∃ e, forecast headers_only_frame (VFloat 0.3) = Raise e
       ∧ exn_cls e = IndexError.
Proof.
  destruct (forecast_on_empty_table headers_only_frame (Float64 [])
              0.3%float) as (_ & Hforecast).
  - exact headers_only_frame_wf.
  - reflexivity.
  - reflexivity.
  - exact Hforecast.
Defined.


Lemma success_result_fields_witness :
  ∃ d, Predict_Best_Tolerance_based_on_Material example_frame = Ok d
       ∧ scenario_count (Ok d) = Some 4.
Proof.
  pose proof (predict_reads example_frame
                [(-0.05)%float; 0%float; 0.05%float] 9.8%float 10.2%float
                15%float (measurements_len _ _ _ _ _)
                (measurements_reads _ _ _ _ _)) as Hrun.
  destruct (success_result_fields example_frame _ Hrun)
    as (_ & _ & _ & Hcount & _).
  - reflexivity.
  - eexists. split; [exact Hrun|exact Hcount].
Defined.

Lemma filtered_table_never_errors_witness :
  len (frame_mask shop_frame [true; true; false; false]) ≠ 0
  ∧ result_field
      (Predict_Best_Tolerance_based_on_Material
         (frame_mask shop_frame [true; true; false; false]))
      "success" = Some (VBool true).
Proof.
  destruct (filtered_table_never_errors shop_frame
              (frame_mask shop_frame [true; true; false; false])
              [9.9%float; 10.0%float; 10.1%float; 10.2%float]
              9.8%float 10.2%float 15%float [("MachineId", [VStr "M1"])])
    as [[Hempty _]|Hsuccess].
  - exact shop_frame_wf.
  - exact shop_frame_reads.
  - reflexivity.
  - discriminate Hempty.
  - exact Hsuccess.
Defined.

Lemma forecast_default_is_current_cp_witness :
  ∃ cp grr,
    forecast example_frame (VFloat (10.2 - 9.8)%float) = Ok (VFloat cp, grr)
    ∧ result_field (Predict_Best_Tolerance_based_on_Material example_frame)
        "current_cp" = Some (VFloat cp).
Proof.
  apply (forecast_default_is_current_cp example_frame
           [(-0.05)%float; 0%float; 0.05%float] 9.8%float 10.2%float
           15%float).
  - simpl. lia.
  - apply measurements_reads.
  - vm_compute. reflexivity.
Defined.
